(** * Job import dashboard: a shallow embedding of the front end

  The development follows the two React components of the repository:
  the import-history table ([ImportHistoryTable]) and the dashboard page
  ([Dashboard]).  Component state is a record, every [useState] setter is
  a record update, an [async] handler is a computation in a small
  state-and-exception monad whose network answer is an argument, and the
  JSX fragments the properties talk about (status badge, success-rate
  cell, pagination controls) are functions to small records. *)

From Stdlib Require Import ZArith String Ascii List Bool Lia DecimalString.
From Stdlib Require Import QArith Qround DecimalZ DecimalPos.
Import ListNotations.

Set Warnings "-register-all".

Open Scope string_scope.
Open Scope list_scope.
Open Scope Z_scope.

Infix "+++" := String.append (at level 60, right associativity).

(** ** JavaScript values and control flow *)

Module Js.

(** A value of type [any], as [JSON.parse] produces it.  Numbers are the
    integers the API carries (counts, identifiers, milliseconds). *)
Inductive value : Type :=
| VUndefined
| VNull
| VBool (b : bool)
| VNum (n : Z)
| VStr (s : string)
| VArray (items : list value)
| VObject (fields : list (string * value)).

(** [ToBoolean]: what [if (v)], [!v] and [v || w] test. *)
Definition truthy (v : value) : bool :=
  match v with
  | VUndefined | VNull => false
  | VBool b => b
  | VNum n => negb (n =? 0)
  | VStr s => negb (String.eqb s "")
  | VArray _ | VObject _ => true
  end.

(** [a || b] *)
Definition or (a b : value) : value := if truthy a then a else b.

(** [Number.prototype.toString] on an integer: decimal digits, with a
    leading minus sign below zero. *)
Definition numToString (n : Z) : string :=
  NilZero.string_of_int (Z.to_int n).

(** [ToString], as a template literal applies it to [${v}]. *)
Fixpoint toString (v : value) : string :=
  match v with
  | VUndefined => "undefined"
  | VNull => "null"
  | VBool true => "true"
  | VBool false => "false"
  | VNum n => numToString n
  | VStr s => s
  | VArray items =>
      (fix join (l : list value) : string :=
         match l with
         | [] => ""
         | x :: r =>
             let sx := match x with
                       | VUndefined | VNull => ""
                       | _ => toString x
                       end in
             match r with
             | [] => sx
             | _ :: _ => sx +++ "," +++ join r
             end
         end) items
  | VObject _ => "[object Object]"
  end.

(** What a [throw] or a rejected promise carries. *)
Inductive error : Type :=
| Error (message : string)        (* new Error(message) *)
| TypeError (message : string)    (* property of undefined/null; fetch rejected *)
| SyntaxError (message : string). (* response.json() on a body that is not JSON *)

Inductive result (A : Type) : Type :=
| Ok (a : A)
| Throw (e : error).
Arguments Ok {A} a.
Arguments Throw {A} e.

(** Computations over a store [S] that may throw: the store survives an
    exception, as the effects of a [try] block do. *)
Definition M (S A : Type) : Type := S -> S * result A.

Definition ret {S A} (a : A) : M S A := fun s => (s, Ok a).

Definition bind {S A B} (c : M S A) (k : A -> M S B) : M S B :=
  fun s => match c s with
           | (s', Ok a) => k a s'
           | (s', Throw e) => (s', Throw e)
           end.

Definition throw {S A} (e : error) : M S A := fun s => (s, Throw e).

Definition modify {S} (f : S -> S) : M S unit := fun s => (f s, Ok tt).

(** [try { c } catch (e) { h e }] *)
Definition tryCatch {S A} (c : M S A) (h : error -> M S A) : M S A :=
  fun s => match c s with
           | (s', Ok a) => (s', Ok a)
           | (s', Throw e) => h e s'
           end.

(** [try { c } finally { f }]: [f] runs on both exits, the exit of [c]
    is kept unless [f] itself throws. *)
Definition tryFinally {S A} (c : M S A) (f : M S unit) : M S A :=
  fun s => match c s with
           | (s', r) => match f s' with
                        | (s'', Ok _) => (s'', r)
                        | (s'', Throw e) => (s'', Throw e)
                        end
           end.

Definition exec {S A} (c : M S A) (s : S) : S := fst (c s).

End Js.

Import Js.

Declare Scope js_scope.
Delimit Scope js_scope with js.
Notation "x <- c ;; k" := (Js.bind c (fun x => k))
  (at level 61, c at next level, right associativity) : js_scope.
Notation "c ;;; k" := (Js.bind c (fun _ => k))
  (at level 61, right associativity) : js_scope.

(** ** The HTTP boundary *)

Module Http.

(** The envelope every endpoint answers with: [{success, message, data}].
    [data = None] stands for a [data] member that is absent or [null],
    so that reading a member of it throws. *)
Record ApiBody (D : Type) : Type := mkBody {
  success : value;
  message : value;
  data : option D
}.
Arguments mkBody {D}.
Arguments success {D}.
Arguments message {D}.
Arguments data {D}.

(** What [await response.json()] gives. *)
Inductive jsonOutcome (D : Type) : Type :=
| JsonInvalid                       (* the promise rejects *)
| JsonNull                          (* the body is the JSON text null *)
| JsonObject (body : ApiBody D).
Arguments JsonInvalid {D}.
Arguments JsonNull {D}.
Arguments JsonObject {D} body.

(** What [await fetch(...)] gives. *)
Inductive fetchOutcome (D : Type) : Type :=
| NetworkFailure                                   (* fetch rejects *)
| HttpResponse (status : Z) (json : jsonOutcome D).
Arguments NetworkFailure {D}.
Arguments HttpResponse {D} status json.

(** [response.ok]: the status is in the range 200-299. *)
Definition ok (status : Z) : bool := (200 <=? status) && (status <=? 299).

Inductive method : Type := GET | POST.

(** A request as handed to [fetch].  [body] is the value given to
    [JSON.stringify]. *)
Record Request : Type := mkRequest {
  url : string;
  verb : method;
  headers : list (string * string);
  body : option value
}.

Definition get (u : string) : Request :=
  {| url := u; verb := GET; headers := []; body := None |}.

End Http.

Import Http.

(** ** Side effects outside component state *)

Inductive Toast : Type :=
| ToastError (text : string)
| ToastSuccess (text : string).

(** The component state [St] together with what the handlers emit:
    requests, toasts, console lines and timers, oldest first. *)
Record World (St : Type) : Type := mkWorld {
  comp : St;
  requests : list Request;
  toasts : list Toast;
  consoleErrors : list (string * error);
  timeouts : list (string * Z)
}.
Arguments mkWorld {St}.
Arguments comp {St}.
Arguments requests {St}.
Arguments toasts {St}.
Arguments consoleErrors {St}.
Arguments timeouts {St}.

Section Effects.
Context {St : Type}.

Definition setComp (f : St -> St) : M (World St) unit :=
  modify (fun w => mkWorld (f (comp w)) (requests w) (toasts w)
                           (consoleErrors w) (timeouts w)).

Definition toast (t : Toast) : M (World St) unit :=
  modify (fun w => mkWorld (comp w) (requests w) (toasts w ++ [t])
                           (consoleErrors w) (timeouts w)).

Definition consoleError (label : string) (e : error) : M (World St) unit :=
  modify (fun w => mkWorld (comp w) (requests w) (toasts w)
                           (consoleErrors w ++ [(label, e)]) (timeouts w)).

Definition setTimeout (callback : string) (ms : Z) : M (World St) unit :=
  modify (fun w => mkWorld (comp w) (requests w) (toasts w)
                           (consoleErrors w) (timeouts w ++ [(callback, ms)])).

(** [await fetch(req)]: the request goes out, the answer is [o]. *)
Definition fetch {D} (req : Request) (o : fetchOutcome D)
  : M (World St) (Z * jsonOutcome D) :=
  fun w =>
    let w' := mkWorld (comp w) (requests w ++ [req]) (toasts w)
                      (consoleErrors w) (timeouts w) in
    match o with
    | NetworkFailure => (w', Throw (TypeError "Failed to fetch"))
    | HttpResponse status json => (w', Ok (status, json))
    end.

(** [await response.json()] followed by the first member access on the
    parsed value, which throws when that value is [null]. *)
Definition json {D} (j : jsonOutcome D) : M (World St) (ApiBody D) :=
  match j with
  | JsonInvalid => throw (SyntaxError "Unexpected token in JSON")
  | JsonNull => throw (TypeError "Cannot read properties of null")
  | JsonObject b => ret b
  end.

(** [data.data.member]: throws when [data.data] is absent. *)
Definition dataOf {D} (b : ApiBody D) : M (World St) D :=
  match data b with
  | None => throw (TypeError "Cannot read properties of undefined")
  | Some d => ret d
  end.

End Effects.

(** ** src/components/ImportHistoryTable.tsx *)

Module ImportHistoryTable.

Record ImportLogEntry : Type := mkEntry {
  id : string;
  importId : string;
  source : string;
  sourceUrl : string;
  status : string;
  timestamp : string;
  duration : option Z;
  totalFetched : Z;
  totalImported : Z;
  newJobs : Z;
  updatedJobs : Z;
  failedJobs : Z;
  successRate : Z;
  errorCount : Z;
  warningCount : Z;
  triggerType : string;
  triggeredBy : string;
  startTime : string;
  endTime : option string;
  errors : list value;
  warnings : list value;
  metadata : value
}.

(** [interface Filters].  The members [source] and [status] are written
    [f_source] and [f_status], the plain names being those of the entry
    above.  [sortOrder] is kept as the string it is at run time; that it
    only ever holds asc or desc is a property of the handlers, proved
    below. *)
Record Filters : Type := mkFilters {
  f_source : string;
  f_status : string;
  startDate : string;
  endDate : string;
  sortBy : string;
  sortOrder : string
}.

Record Pagination : Type := mkPagination {
  currentPage : Z;
  totalPages : Z;
  totalCount : Z;
  hasNextPage : bool;
  hasPrevPage : bool;
  limit : Z
}.

(** The [useState] cells of the component. *)
Record State : Type := mkState {
  logs : list ImportLogEntry;
  loading : bool;
  pagination : Pagination;
  filters : Filters;
  showFilters : bool;
  selectedLog : option ImportLogEntry;
  showDetails : bool
}.

Definition initialPagination : Pagination :=
  {| currentPage := 1; totalPages := 1; totalCount := 0;
     hasNextPage := false; hasPrevPage := false; limit := 10 |}.

Definition initialFilters : Filters :=
  {| f_source := ""; f_status := ""; startDate := ""; endDate := "";
     sortBy := "startTime"; sortOrder := "desc" |}.

Definition initialState : State :=
  {| logs := []; loading := true; pagination := initialPagination;
     filters := initialFilters; showFilters := false;
     selectedLog := None; showDetails := false |}.

Definition setLogs (l : list ImportLogEntry) (s : State) : State :=
  mkState l (loading s) (pagination s) (filters s) (showFilters s)
          (selectedLog s) (showDetails s).

Definition setLoading (b : bool) (s : State) : State :=
  mkState (logs s) b (pagination s) (filters s) (showFilters s)
          (selectedLog s) (showDetails s).

Definition setPagination (p : Pagination) (s : State) : State :=
  mkState (logs s) (loading s) p (filters s) (showFilters s)
          (selectedLog s) (showDetails s).

Definition setFilters (f : Filters -> Filters) (s : State) : State :=
  mkState (logs s) (loading s) (pagination s) (f (filters s)) (showFilters s)
          (selectedLog s) (showDetails s).

Definition setShowFilters (b : bool) (s : State) : State :=
  mkState (logs s) (loading s) (pagination s) (filters s) b
          (selectedLog s) (showDetails s).

Definition setSelectedLog (l : option ImportLogEntry) (s : State) : State :=
  mkState (logs s) (loading s) (pagination s) (filters s) (showFilters s)
          l (showDetails s).

Definition setShowDetails (b : bool) (s : State) : State :=
  mkState (logs s) (loading s) (pagination s) (filters s) (showFilters s)
          (selectedLog s) b.

(** *** The query of [fetchLogs] *)

(** [...(v && { key: v })] inside an object literal: an empty string is
    falsy and spreads to nothing, any other string adds the member. *)
Definition spreadIf (key v : string) : list (string * string) :=
  if String.eqb v "" then [] else [(key, v)].

(** The entries of [new URLSearchParams({...})], in member order. *)
Definition queryParams (page : Z) (p : Pagination) (f : Filters)
  : list (string * string) :=
  [ ("page", numToString page);
    ("limit", numToString (limit p));
    ("sortBy", sortBy f);
    ("sortOrder", sortOrder f) ]
  ++ spreadIf "source" (f_source f)
  ++ spreadIf "status" (f_status f)
  ++ spreadIf "startDate" (startDate f)
  ++ spreadIf "endDate" (endDate f).

(** [URLSearchParams.get]: the value of the first entry named [key]. *)
Fixpoint param (key : string) (q : list (string * string)) : option string :=
  match q with
  | [] => None
  | (k, v) :: r => if String.eqb k key then Some v else param key r
  end.

(** [URLSearchParams.has] *)
Definition hasParam (key : string) (q : list (string * string)) : bool :=
  existsb (fun kv => String.eqb (fst kv) key) q.

(** The application/x-www-form-urlencoded serializer behind
    [URLSearchParams.toString]: on the UTF-8 bytes of a string, letters,
    digits and [*-._] stay, a space becomes [+], any other byte becomes a
    percent sign and two upper-case hexadecimal digits. *)
Definition hexDigit (n : N) : ascii :=
  if (n <? 10)%N then ascii_of_N (48 + n) else ascii_of_N (55 + n).

Definition formKeeps (c : ascii) : bool :=
  let n := N_of_ascii c in
  ((48 <=? n) && (n <=? 57) || (65 <=? n) && (n <=? 90)
   || (97 <=? n) && (n <=? 122)
   || (n =? 42) || (n =? 45) || (n =? 46) || (n =? 95))%N.

Fixpoint formEncode (s : string) : string :=
  match s with
  | EmptyString => EmptyString
  | String c r =>
      let n := N_of_ascii c in
      if formKeeps c then String c (formEncode r)
      else if (n =? 32)%N then String "+" (formEncode r)
      else String "%" (String (hexDigit (n / 16)) (String (hexDigit (n mod 16))
                                                          (formEncode r)))
  end.

Fixpoint formSerialize (q : list (string * string)) : string :=
  match q with
  | [] => ""
  | (k, v) :: r =>
      let kv := formEncode k +++ "=" +++ formEncode v in
      match r with
      | [] => kv
      | _ :: _ => kv +++ "&" +++ formSerialize r
      end
  end.

Definition logsRequest (page : Z) (s : State) : Request :=
  Http.get ("/api/import/logs?"
            +++ formSerialize (queryParams page (pagination s) (filters s))).

(** The payload of [GET /api/import/logs]. *)
Record LogsData : Type := mkLogsData {
  d_logs : list ImportLogEntry;
  d_pagination : Pagination
}.

Definition fetchLogsError : string := "Failed to fetch import logs".

Local Open Scope js_scope.

(** The [try] block of [fetchLogs].  [closure] is the state of the render
    that created the function: the query is built from its [pagination]
    and [filters], while the setters act on the current state. *)
Definition fetchLogsBody (closure : State) (page : Z)
  (o : fetchOutcome LogsData) : M (World State) unit :=
  response <- fetch (logsRequest page closure) o ;;
  let '(status, j) := response in
  if negb (Http.ok status) then throw (Error fetchLogsError)
  else
    body <- json j ;;
    if truthy (success body) then
      d <- dataOf body ;;
      setComp (setLogs (d_logs d)) ;;;
      setComp (setPagination (d_pagination d))
    else
      throw (Error (toString (Js.or (message body) (VStr fetchLogsError)))).

(** [fetchLogs(page)] of the render [closure], given the answer [o] of
    the server.  A call without argument has [page = 1]. *)
Definition fetchLogsOf (closure : State) (page : Z)
  (o : fetchOutcome LogsData) : M (World State) unit :=
  setComp (setLoading true) ;;;
  tryFinally
    (tryCatch (fetchLogsBody closure page o)
              (fun e =>
                 consoleError "Error fetching import logs:" e ;;;
                 toast (ToastError fetchLogsError)))
    (setComp (setLoading false)).

(** [fetchLogs(page)] called from the render of the current state. *)
Definition fetchLogs (page : Z) (o : fetchOutcome LogsData)
  : M (World State) unit :=
  fun w => fetchLogsOf (comp w) page o w.

Local Close Scope js_scope.

(** *** Filter and sort handlers *)

(** [keyof Filters] *)
Inductive FilterKey : Type :=
| KSource | KStatus | KStartDate | KEndDate | KSortBy | KSortOrder.

(** [{ ...prev, [key]: value }] *)
Definition assign (key : FilterKey) (v : string) (prev : Filters) : Filters :=
  match key with
  | KSource => mkFilters v (f_status prev) (startDate prev) (endDate prev)
                         (sortBy prev) (sortOrder prev)
  | KStatus => mkFilters (f_source prev) v (startDate prev) (endDate prev)
                         (sortBy prev) (sortOrder prev)
  | KStartDate => mkFilters (f_source prev) (f_status prev) v (endDate prev)
                            (sortBy prev) (sortOrder prev)
  | KEndDate => mkFilters (f_source prev) (f_status prev) (startDate prev) v
                          (sortBy prev) (sortOrder prev)
  | KSortBy => mkFilters (f_source prev) (f_status prev) (startDate prev)
                         (endDate prev) v (sortOrder prev)
  | KSortOrder => mkFilters (f_source prev) (f_status prev) (startDate prev)
                            (endDate prev) (sortBy prev) v
  end.

Definition handleFilterChange (key : FilterKey) (v : string) (s : State)
  : State :=
  setFilters (assign key v) s.

Definition handleSort (column : string) (s : State) : State :=
  let newOrder :=
    if String.eqb (sortBy (filters s)) column
       && String.eqb (sortOrder (filters s)) "desc"
    then "asc" else "desc" in
  setFilters (fun prev => assign KSortOrder newOrder (assign KSortBy column prev))
             s.

Definition clearFilters (s : State) : State :=
  setFilters (fun _ => mkFilters "" "" "" "" "startTime" "desc") s.

Definition showLogDetails (log : ImportLogEntry) (s : State) : State :=
  setShowDetails true (setSelectedLog (Some log) s).

(** *** Cell renderers *)

Inductive Icon : Type :=
| ClockIcon | ArrowUpIcon | ArrowDownIcon | CheckCircleIcon | XCircleIcon.

Record StatusStyle : Type := mkStyle {
  bg : string;
  text : string;
  icon : Icon
}.

Definition pendingStyle : StatusStyle :=
  mkStyle "bg-yellow-100" "text-yellow-800" ClockIcon.

(** The own members of the [statusConfig] object literal. *)
Definition statusConfig : list (string * StatusStyle) :=
  [ ("pending", pendingStyle);
    ("in-progress", mkStyle "bg-blue-100" "text-blue-800" ArrowUpIcon);
    ("completed", mkStyle "bg-green-100" "text-green-800" CheckCircleIcon);
    ("failed", mkStyle "bg-red-100" "text-red-800" XCircleIcon);
    ("cancelled", mkStyle "bg-gray-100" "text-gray-800" XCircleIcon) ].

(** The members an object literal inherits from [Object.prototype]. *)
Definition objectPrototype : list string :=
  [ "constructor"; "hasOwnProperty"; "isPrototypeOf"; "propertyIsEnumerable";
    "toLocaleString"; "toString"; "valueOf"; "__proto__";
    "__defineGetter__"; "__defineSetter__";
    "__lookupGetter__"; "__lookupSetter__" ].

(** What [statusConfig[key]] evaluates to: an own member, else a member
    found on the prototype (a built-in function, or the prototype object
    for [__proto__]), else [undefined]. *)
Inductive Member : Type :=
| Own (c : StatusStyle)
| Inherited (name : string)
| Absent.

Fixpoint ownMember (key : string) (o : list (string * StatusStyle))
  : option StatusStyle :=
  match o with
  | [] => None
  | (k, c) :: r => if String.eqb k key then Some c else ownMember key r
  end.

Definition getMember (key : string) : Member :=
  match ownMember key statusConfig with
  | Some c => Own c
  | None =>
      if existsb (String.eqb key) objectPrototype then Inherited key
      else Absent
  end.

(** [m.bg], [m.text], [m.icon]: the built-ins carry no such members. *)
Definition memberBg (m : Member) : value :=
  match m with Own c => VStr (bg c) | _ => VUndefined end.

Definition memberText (m : Member) : value :=
  match m with Own c => VStr (text c) | _ => VUndefined end.

Definition memberIcon (m : Member) : option Icon :=
  match m with Own c => Some (icon c) | _ => None end.

(** The [<span>] of [getStatusBadge]: its class, the component used as
    [Icon] ([None] when that is [undefined]) and its text. *)
Record Badge : Type := mkBadge {
  className : string;
  badgeIcon : option Icon;
  label : string
}.

Definition badgeBase : string :=
  "inline-flex items-center px-2.5 py-0.5 rounded-full text-xs font-medium ".

Definition getStatusBadge (st : string) : Badge :=
  let config :=
    match getMember st with
    | Absent => Own pendingStyle      (* undefined || statusConfig.pending *)
    | m => m                          (* objects and functions are truthy *)
    end in
  {| className := badgeBase +++ toString (memberBg config) +++ " "
                  +++ toString (memberText config);
     badgeIcon := memberIcon config;
     label := st |}.

Definition formatDuration (d : option Z) : string :=
  match d with
  | None => "N/A"
  | Some ms =>
      if ms =? 0 then "N/A"
      else
        let seconds := ms / 1000 in
        let minutes := seconds / 60 in
        let hours := minutes / 60 in
        if 0 <? hours then
          numToString hours +++ "h " +++ numToString (Z.rem minutes 60) +++ "m"
        else if 0 <? minutes then
          numToString minutes +++ "m " +++ numToString (Z.rem seconds 60) +++ "s"
        else numToString seconds +++ "s"
  end.

(** [SortIcon]: nothing unless the column is the sorted one. *)
Definition SortIcon (column : string) (s : State) : option Icon :=
  if negb (String.eqb (sortBy (filters s)) column) then None
  else if String.eqb (sortOrder (filters s)) "desc" then Some ArrowDownIcon
  else Some ArrowUpIcon.

(** The success-rate cell of a row. *)
Record RateCell : Type := mkRateCell {
  barColor : string;
  barWidth : string;
  rateText : string
}.

Definition successRateCell (log : ImportLogEntry) : RateCell :=
  {| barColor := if 90 <=? successRate log then "bg-green-500"
                 else if 70 <=? successRate log then "bg-yellow-500"
                 else "bg-red-500";
     barWidth := numToString (successRate log) +++ "%";
     rateText := numToString (successRate log) +++ "%" |}.

(** The pagination footer, rendered only when [totalPages > 1]. *)
Record PageControls : Type := mkControls {
  showingFrom : Z;
  showingTo : Z;
  prevDisabled : bool;
  prevTarget : Z;
  nextDisabled : bool;
  nextTarget : Z
}.

Definition paginationControls (p : Pagination) : option PageControls :=
  if 1 <? totalPages p then
    Some {| showingFrom := (currentPage p - 1) * limit p + 1;
            showingTo := Z.min (currentPage p * limit p) (totalCount p);
            prevDisabled := negb (hasPrevPage p);
            prevTarget := currentPage p - 1;
            nextDisabled := negb (hasNextPage p);
            nextTarget := currentPage p + 1 |}
  else None.

(** A button can be pressed when it is on the page and not disabled. *)
Definition nextEnabled (p : Pagination) : bool :=
  match paginationControls p with
  | Some c => negb (nextDisabled c)
  | None => false
  end.

Definition prevEnabled (p : Pagination) : bool :=
  match paginationControls p with
  | Some c => negb (prevDisabled c)
  | None => false
  end.

(** *** The component as a transition system *)

(** What the user can do on the rendered table.  An event that leads to a
    request carries the answer the server gives to it, and that answer is
    handled before the next event.  The four filter inputs call
    [handleFilterChange] with their own key; a change of [filters]
    re-renders and re-runs the effect that calls [fetchLogs(1)]. *)
Inductive Event : Type :=
| ToggleFilters
| ClickRefresh (o : fetchOutcome LogsData)
| SelectSource (v : string) (o : fetchOutcome LogsData)
| SelectStatus (v : string) (o : fetchOutcome LogsData)
| PickStartDate (v : string) (o : fetchOutcome LogsData)
| PickEndDate (v : string) (o : fetchOutcome LogsData)
| ClickSort (column : string) (o : fetchOutcome LogsData)
| ClickClearFilters (o : fetchOutcome LogsData)
| ClickPrev (o : fetchOutcome LogsData)
| ClickNext (o : fetchOutcome LogsData)
| ClickDetails (log : ImportLogEntry)
| CloseDetails.

Local Open Scope js_scope.

Definition handlePageChange (page : Z) (o : fetchOutcome LogsData)
  : M (World State) unit :=
  fetchLogs page o.

Definition dispatch (e : Event) : M (World State) unit :=
  fun w =>
    let s := comp w in
    (match e with
     | ToggleFilters => setComp (setShowFilters (negb (showFilters s)))
     | ClickRefresh o => fetchLogs (currentPage (pagination s)) o
     | SelectSource v o =>
         setComp (handleFilterChange KSource v) ;;; fetchLogs 1 o
     | SelectStatus v o =>
         setComp (handleFilterChange KStatus v) ;;; fetchLogs 1 o
     | PickStartDate v o =>
         setComp (handleFilterChange KStartDate v) ;;; fetchLogs 1 o
     | PickEndDate v o =>
         setComp (handleFilterChange KEndDate v) ;;; fetchLogs 1 o
     | ClickSort column o => setComp (handleSort column) ;;; fetchLogs 1 o
     | ClickClearFilters o => setComp clearFilters ;;; fetchLogs 1 o
     | ClickPrev o =>
         if prevEnabled (pagination s)
         then handlePageChange (currentPage (pagination s) - 1) o
         else ret tt
     | ClickNext o =>
         if nextEnabled (pagination s)
         then handlePageChange (currentPage (pagination s) + 1) o
         else ret tt
     | ClickDetails log => setComp (showLogDetails log)
     | CloseDetails => setComp (setShowDetails false)
     end) w.

Definition emptyWorld : World State := mkWorld initialState [] [] [] [].

(** The first render: both effects run, [fetchLogs()] and [fetchLogs(1)],
    each from the closure of that render; the two answers are handled in
    the order of the requests. *)
Definition mount (o1 o2 : fetchOutcome LogsData) : World State :=
  exec (fetchLogsOf initialState 1 o2)
       (exec (fetchLogsOf initialState 1 o1) emptyWorld).

Fixpoint run (es : list Event) (w : World State) : World State :=
  match es with
  | [] => w
  | e :: r => run r (exec (dispatch e) w)
  end.

Local Close Scope js_scope.

(** *** What is on screen *)

(** The [<tbody>]: a spinner while loading, one line of text when there
    is no entry, else one row for each entry of [logs], in order. *)
Inductive TableBody : Type :=
| Spinner
| NoLogsFound
| Rows (entries : list ImportLogEntry).

Definition tableBody (s : State) : TableBody :=
  if loading s then Spinner
  else match logs s with
       | [] => NoLogsFound
       | _ :: _ => Rows (logs s)
       end.

(** The details modal, [showDetails && selectedLog && (...)]: the entry
    it shows, if it is on screen. *)
Definition detailsModal (s : State) : option ImportLogEntry :=
  if showDetails s then selectedLog s else None.

End ImportHistoryTable.

(** ** src/pages/index.tsx *)

Module Dashboard.

Record ImportStats : Type := mkStats {
  totalImports : Z;
  totalFetched : Z;
  totalImported : Z;
  totalNew : Z;
  totalUpdated : Z;
  totalFailed : Z;
  successRate : Z;
  avgDuration : Z
}.

Record QueueStats : Type := mkQueue {
  waiting : Z;
  active : Z;
  completed : Z;
  failed : Z;
  total : Z
}.

Record SchedulerStatus : Type := mkScheduler {
  sch_active : bool;
  taskCount : Z;
  importInterval : string
}.

Record ImportStatus : Type := mkStatus {
  queue : QueueStats;
  scheduler : SchedulerStatus;
  timestamp : string
}.

Inductive Tab : Type := Overview | History.

(** The [useState] cells of the page; [None] is [null] or [undefined]. *)
Record State : Type := mkState {
  importStats : option ImportStats;
  importStatus : option ImportStatus;
  loading : bool;
  triggering : bool;
  activeTab : Tab
}.

Definition initialState : State :=
  {| importStats := None; importStatus := None; loading := true;
     triggering := false; activeTab := Overview |}.

Definition setImportStats (v : option ImportStats) (s : State) : State :=
  mkState v (importStatus s) (loading s) (triggering s) (activeTab s).

Definition setImportStatus (v : option ImportStatus) (s : State) : State :=
  mkState (importStats s) v (loading s) (triggering s) (activeTab s).

Definition setLoading (b : bool) (s : State) : State :=
  mkState (importStats s) (importStatus s) b (triggering s) (activeTab s).

Definition setTriggering (b : bool) (s : State) : State :=
  mkState (importStats s) (importStatus s) (loading s) b (activeTab s).

Local Open Scope js_scope.

(** [await Promise.all([fetch(a), fetch(b)])]: both requests leave, then
    the first rejection, if any, is thrown. *)
Definition fetchBoth {A B} (ra rb : Request)
  (oa : fetchOutcome A) (ob : fetchOutcome B)
  : M (World State) ((Z * jsonOutcome A) * (Z * jsonOutcome B)) :=
  fun w =>
    let w' := mkWorld (comp w) (requests w ++ [ra; rb]) (toasts w)
                      (consoleErrors w) (timeouts w) in
    match oa, ob with
    | HttpResponse sa ja, HttpResponse sb jb => (w', Ok ((sa, ja), (sb, jb)))
    | _, _ => (w', Throw (TypeError "Failed to fetch"))
    end.

Definition fetchData (oStats : fetchOutcome ImportStats)
  (oStatus : fetchOutcome ImportStatus) : M (World State) unit :=
  tryFinally
    (tryCatch
       (both <- fetchBoth (Http.get "/api/import/stats")
                          (Http.get "/api/import/status") oStats oStatus ;;
        let '((statsCode, statsJson), (statusCode, statusJson)) := both in
        (if Http.ok statsCode then
           statsData <- json statsJson ;;
           setComp (setImportStats (data statsData))
         else ret tt) ;;;
        (if Http.ok statusCode then
           statusData <- json statusJson ;;
           setComp (setImportStatus (data statusData))
         else ret tt))
       (fun e =>
          consoleError "Error fetching data:" e ;;;
          toast (ToastError "Failed to fetch dashboard data")))
    (setComp (setLoading false)).

(** The payload of [POST /api/import/trigger]. *)
Record TriggerData : Type := mkTriggerData { jobId : value }.

Definition triggerRequest : Request :=
  {| url := "/api/import/trigger";
     verb := POST;
     headers := [("Content-Type", "application/json")];
     body := Some (VObject [ ("priority", VNum 10);
                             ("concurrency", VNum 5);
                             ("batchSize", VNum 100) ]) |}.

Definition triggerImport (o : fetchOutcome TriggerData)
  : M (World State) unit :=
  setComp (setTriggering true) ;;;
  tryFinally
    (tryCatch
       (response <- fetch triggerRequest o ;;
        let '(code, j) := response in
        if Http.ok code then
          body <- json j ;;
          d <- dataOf body ;;
          toast (ToastSuccess
                   ("Import job triggered successfully! Job ID: "
                    +++ toString (jobId d))) ;;;
          setTimeout "fetchData" 1000
        else throw (Error "Failed to trigger import"))
       (fun e =>
          consoleError "Error triggering import:" e ;;;
          toast (ToastError "Failed to trigger import job")))
    (setComp (setTriggering false)).

Definition emptyWorld : World State := mkWorld initialState [] [] [] [].

Local Close Scope js_scope.

End Dashboard.

(** ** The server side, as the specification describes it *)

Module Server.

Import ImportHistoryTable.

(** Modelled from the spec: the rounding of section 8, which the server
    applies when it finalizes a run (the server is not part of these
    sources).  Half-way cases go up, as [Math.round] does. *)
Definition round (q : Q) : Z := Qfloor (q + (1 # 2)).

(** Modelled from the spec: the success rate of an ImportLogEntry
    (sections 3 and 8, computed by the Run Orchestrator, which is not part
    of these sources): [round(totalImported / totalFetched * 100)] when
    [totalFetched > 0], else [0]. *)
Definition successRate (imported fetched : Z) : Z :=
  if 0 <? fetched
  then round (inject_Z imported / inject_Z fetched * inject_Z 100)
  else 0.

(** Modelled from the spec: what happens to one fetched record (sections
    4.3 and 4.4; Validator and Upserter are not part of these sources).  It
    is rejected by validation, inserted, updated in place, found identical,
    or its write fails. *)
Inductive RecordOutcome : Type :=
| Rejected | Inserted | Updated | Unchanged | WriteFailed.

(** Modelled from the spec: the counters a run accumulates (section 4.5;
    the Run Orchestrator is not part of these sources). *)
Record RunStats : Type := mkRunStats {
  r_fetched : Z;
  r_new : Z;
  r_updated : Z;
  r_failed : Z
}.

(** Modelled from the spec: the accumulation of section 4.5 (Run
    Orchestrator, not part of these sources).  Every record counts as
    fetched; an insert counts as new, an update as updated, a rejection or
    a failed write as failed, an identical record as none of them. *)
Fixpoint accumulate (rs : list RecordOutcome) (acc : RunStats) : RunStats :=
  match rs with
  | [] => acc
  | o :: r =>
      accumulate r
        match o with
        | Rejected | WriteFailed =>
            mkRunStats (r_fetched acc + 1) (r_new acc) (r_updated acc)
                       (r_failed acc + 1)
        | Inserted =>
            mkRunStats (r_fetched acc + 1) (r_new acc + 1) (r_updated acc)
                       (r_failed acc)
        | Updated =>
            mkRunStats (r_fetched acc + 1) (r_new acc) (r_updated acc + 1)
                       (r_failed acc)
        | Unchanged =>
            mkRunStats (r_fetched acc + 1) (r_new acc) (r_updated acc)
                       (r_failed acc)
        end
  end.

(** Modelled from the spec: the finalization of section 4.5 (Run
    Orchestrator, not part of these sources).  The counters of the entry
    [e] the run owns are set from the run, [totalImported] is new plus
    updated, and the success rate is computed from the two totals. *)
Definition finalize (e : ImportLogEntry) (rs : list RecordOutcome)
  : ImportLogEntry :=
  let st := accumulate rs (mkRunStats 0 0 0 0) in
  let imported := r_new st + r_updated st in
  mkEntry (id e) (importId e) (source e) (sourceUrl e) (status e)
          (timestamp e) (duration e)
          (r_fetched st) imported (r_new st) (r_updated st) (r_failed st)
          (successRate imported (r_fetched st))
          (errorCount e) (warningCount e) (triggerType e) (triggeredBy e)
          (startTime e) (endTime e) (errors e) (warnings e) (metadata e).

(** Modelled from the spec: [ceil(totalCount / limit)] of sections 6 and 8
    (the logs endpoint is not part of these sources). *)
Definition ceilDiv (count lim : Z) : Z :=
  Qceiling (inject_Z count / inject_Z lim).

(** Modelled from the spec: the pagination member of the answer to a log
    query for page [page] over [count] matching entries (sections 6 and 8;
    the logs endpoint is not part of these sources): [totalPages] is
    [ceil(totalCount / limit)] and [hasNextPage] is
    [currentPage < totalPages].  The spec does not say how [hasPrevPage] is
    computed, so it is an argument. *)
Definition paginate (count lim page : Z) (prev : bool) : Pagination :=
  {| currentPage := page;
     totalPages := ceilDiv count lim;
     totalCount := count;
     hasNextPage := page <? ceilDiv count lim;
     hasPrevPage := prev;
     limit := lim |}.

End Server.

(** ** Auxiliary definitions for the statements *)

(** The last character of a string, if any. *)
Fixpoint lastChar (s : string) : option ascii :=
  match s with
  | EmptyString => None
  | String c EmptyString => Some c
  | String _ r => lastChar r
  end.

(** The two values the type of [sortOrder] allows. *)
Definition validSortOrder (f : ImportHistoryTable.Filters) : Prop :=
  ImportHistoryTable.sortOrder f = "asc"
  \/ ImportHistoryTable.sortOrder f = "desc".

(** Sample answers of the server. *)
Definition sampleStats : Dashboard.ImportStats :=
  Dashboard.mkStats 12 1200 900 700 200 300 75 42000.

Definition sampleStatus : Dashboard.ImportStatus :=
  Dashboard.mkStatus (Dashboard.mkQueue 1 2 30 4 37)
                     (Dashboard.mkScheduler true 1 "1 hour")
                     "2024-01-31T10:00:00.000Z".

(** HTTP 500 with the failure envelope [{success: false, message}]. *)
Definition statsServerError : fetchOutcome Dashboard.ImportStats :=
  HttpResponse 500
    (JsonObject (mkBody (VBool false) (VStr "Internal Server Error") None)).

(** HTTP 200 whose envelope says [success: false] and still has data. *)
Definition statsRefused : fetchOutcome Dashboard.ImportStats :=
  HttpResponse 200
    (JsonObject (mkBody (VBool false) (VStr "stats unavailable")
                        (Some sampleStats))).

Definition statusOk : fetchOutcome Dashboard.ImportStatus :=
  HttpResponse 200
    (JsonObject (mkBody (VBool true) VUndefined (Some sampleStatus))).

(** HTTP 200 whose envelope says [success: false], with an empty [data]. *)
Definition triggerRefused : fetchOutcome Dashboard.TriggerData :=
  HttpResponse 200
    (JsonObject (mkBody (VBool false) (VStr "queue is shut down")
                        (Some (Dashboard.mkTriggerData VUndefined)))).

(** The badge of an entry whose status is pending, with [st] as text. *)
Definition pendingBadge (st : string) : ImportHistoryTable.Badge :=
  {| ImportHistoryTable.className :=
       ImportHistoryTable.badgeBase +++ "bg-yellow-100 text-yellow-800";
     ImportHistoryTable.badgeIcon := Some ImportHistoryTable.ClockIcon;
     ImportHistoryTable.label := st |}.

(** The payload [fetchLogs] stores: that of an ok response whose body is
    an object with a truthy [success] and a [data] member. *)
Definition logsPayload (o : fetchOutcome ImportHistoryTable.LogsData)
  : option ImportHistoryTable.LogsData :=
  match o with
  | HttpResponse code (JsonObject b) =>
      if Http.ok code && truthy (success b) then data b else None
  | _ => None
  end.

(** The error toast of the table. *)
Definition logsToast : Toast :=
  ToastError ImportHistoryTable.fetchLogsError.

(** A world of the table in which every toast is the error toast of
    [fetchLogs] and each toast has a request to answer for it. *)
Definition toastsAccounted (w : World ImportHistoryTable.State) : Prop :=
  Forall (fun t => t = logsToast) (toasts w)
  /\ (length (toasts w) <= length (requests w))%nat.

(** A state whose modal flag is only set together with an entry, and
    which is not loading. *)
Definition settled (s : ImportHistoryTable.State) : Prop :=
  ImportHistoryTable.loading s = false
  /\ (ImportHistoryTable.showDetails s = true ->
      ImportHistoryTable.selectedLog s <> None).

(** The name of a member of [Filters], as the key of [handleFilterChange]
    spells it. *)
Definition keyName (k : ImportHistoryTable.FilterKey) : string :=
  match k with
  | ImportHistoryTable.KSource => "source"
  | ImportHistoryTable.KStatus => "status"
  | ImportHistoryTable.KStartDate => "startDate"
  | ImportHistoryTable.KEndDate => "endDate"
  | ImportHistoryTable.KSortBy => "sortBy"
  | ImportHistoryTable.KSortOrder => "sortOrder"
  end.

(** The keys the four inputs of the filter panel use. *)
Definition isFilterInput (k : ImportHistoryTable.FilterKey) : bool :=
  match k with
  | ImportHistoryTable.KSortBy | ImportHistoryTable.KSortOrder => false
  | _ => true
  end.

(** The characters the form encoding can put out: those it keeps, the
    plus sign and the percent sign. *)
Definition formSafe (c : ascii) : bool :=
  ImportHistoryTable.formKeeps c || Ascii.eqb c "+" || Ascii.eqb c "%".

(** The value of an upper-case hexadecimal digit. *)
Definition hexValue (c : ascii) : N :=
  let n := N_of_ascii c in
  if (n <=? 57)%N then (n - 48)%N else (n - 55)%N.

(** The reading of a form-encoded string: a plus sign is a space, a
    percent sign and two digits are one byte. *)
Fixpoint formDecode (s : string) : string :=
  match s with
  | EmptyString => EmptyString
  | String c r =>
      if Ascii.eqb c "+" then String " " (formDecode r)
      else if Ascii.eqb c "%" then
        match r with
        | String h (String l r') =>
            String (ascii_of_N (16 * hexValue h + hexValue l)) (formDecode r')
        | _ => String c (formDecode r)
        end
      else String c (formDecode r)
  end.

(** How often a character occurs in a string. *)
Fixpoint countChar (c : ascii) (s : string) : nat :=
  match s with
  | EmptyString => O
  | String x r => (if Ascii.eqb x c then 1 else 0) + countChar c r
  end.

(** An ok response whose body cannot be used: [json()] rejects, or the
    body is [null] and reading its [data] throws. *)
Definition unreadable {D : Type} (code : Z) (j : jsonOutcome D) : bool :=
  Http.ok code && match j with JsonObject _ => false | _ => true end.

(** The answers on which [fetchData] ends in its [catch]. *)
Definition fetchDataThrows (oStats : fetchOutcome Dashboard.ImportStats)
  (oStatus : fetchOutcome Dashboard.ImportStatus) : bool :=
  match oStats, oStatus with
  | HttpResponse c1 j1, HttpResponse c2 j2 =>
      unreadable c1 j1 || unreadable c2 j2
  | _, _ => true
  end.

(** The payload [triggerImport] reads the job id from: that of an ok
    response whose body is an object with a [data] member. *)
Definition triggerPayload (o : fetchOutcome Dashboard.TriggerData)
  : option Dashboard.TriggerData :=
  match o with
  | HttpResponse code (JsonObject b) => if Http.ok code then data b else None
  | _ => None
  end.

(** The value of a hexadecimal digit, of either case. *)
Definition hexDigitValue (c : ascii) : option N :=
  let n := N_of_ascii c in
  if ((48 <=? n) && (n <=? 57))%N then Some (n - 48)%N
  else if ((65 <=? n) && (n <=? 70))%N then Some (n - 55)%N
  else if ((97 <=? n) && (n <=? 102))%N then Some (n - 87)%N
  else None.

(** The reading of a name or value of a query string: a plus sign is a
    space, a percent sign with two hexadecimal digits is one byte, and a
    percent sign without them stands for itself. *)
Fixpoint percentDecode (s : string) : string :=
  match s with
  | EmptyString => EmptyString
  | String c r =>
      if Ascii.eqb c "+" then String " " (percentDecode r)
      else if Ascii.eqb c "%" then
        match r with
        | String h (String l r') =>
            match hexDigitValue h, hexDigitValue l with
            | Some a, Some b =>
                String (ascii_of_N (16 * a + b)) (percentDecode r')
            | _, _ => String c (percentDecode r)
            end
        | _ => String c (percentDecode r)
        end
      else String c (percentDecode r)
  end.

(** The pieces of a string between the occurrences of [c]. *)
Fixpoint splitOn (c : ascii) (s : string) : list string :=
  match s with
  | EmptyString => [EmptyString]
  | String x r =>
      if Ascii.eqb x c then EmptyString :: splitOn c r
      else match splitOn c r with
           | seg :: rest => String x seg :: rest
           | [] => [String x EmptyString]
           end
  end.

(** A string cut at the first [c]: what is before it and what is after
    it; without a [c], the whole string and nothing. *)
Fixpoint cutAt (c : ascii) (s : string) : string * string :=
  match s with
  | EmptyString => (EmptyString, EmptyString)
  | String x r =>
      if Ascii.eqb x c then (EmptyString, r)
      else let (a, b) := cutAt c r in (String x a, b)
  end.

Definition parseEntry (seg : string) : string * string :=
  let (k, v) := cutAt "=" seg in (percentDecode k, percentDecode v).

(** The parameters a query string carries, as the receiver reads them
    (the parser of application/x-www-form-urlencoded): the pieces between
    ampersands, empty ones skipped, each cut at its first equals sign and
    decoded. *)
Definition formParse (qs : string) : list (string * string) :=
  map parseEntry
      (filter (fun seg => negb (String.eqb seg "")) (splitOn "&" qs)).

(** A table that filters on the status failed and nothing else. *)
Definition failedOnly : World ImportHistoryTable.State :=
  mkWorld (ImportHistoryTable.handleFilterChange ImportHistoryTable.KStatus
             "failed" ImportHistoryTable.initialState)
          [] [] [] [].

(** * Properties *)

(** ** Strings *)

Lemma append_assoc (a b c : string) : (a +++ b) +++ c = a +++ (b +++ c).
Proof. induction a as [|x a IH]; simpl; [reflexivity | now rewrite IH]. Qed.

Lemma lastChar_append (a : string) (c : ascii) :
  lastChar (a +++ String c EmptyString) = Some c.
Proof.
  induction a as [|x a IH]; simpl; [reflexivity|].
  rewrite IH. destruct (a +++ String c EmptyString) eqn:E; [|reflexivity].
  destruct a; discriminate.
Qed.

Lemma lastChar_append2 (a b : string) (c : ascii) :
  lastChar (a +++ b +++ String c EmptyString) = Some c.
Proof. rewrite <- append_assoc. apply lastChar_append. Qed.

Lemma lastChar_append3 (a b c : string) (x : ascii) :
  lastChar (a +++ b +++ c +++ String x EmptyString) = Some x.
Proof. rewrite <- append_assoc. apply lastChar_append2. Qed.

(** ** formatDuration *)

Section FormatDuration.
Import ImportHistoryTable.

Lemma formatDuration_unfold (ms : Z) :
  ms <> 0 ->
  formatDuration (Some ms) =
    let seconds := ms / 1000 in
    let minutes := seconds / 60 in
    let hours := minutes / 60 in
    if 0 <? hours then
      numToString hours +++ "h " +++ numToString (Z.rem minutes 60) +++ "m"
    else if 0 <? minutes then
      numToString minutes +++ "m " +++ numToString (Z.rem seconds 60) +++ "s"
    else numToString seconds +++ "s".
Proof.
  intros H. unfold formatDuration.
  destruct (ms =? 0) eqn:E; [apply Z.eqb_eq in E; contradiction | reflexivity].
Qed.

Lemma formatDuration_nonzero_not_NA (ms : Z) :
  ms <> 0 -> formatDuration (Some ms) <> "N/A".
Proof.
  intros H E. apply (f_equal lastChar) in E.
  rewrite formatDuration_unfold in E by assumption. cbv zeta in E.
  destruct (0 <? ms / 1000 / 60 / 60);
    [|destruct (0 <? ms / 1000 / 60)].
  - rewrite lastChar_append3 in E. discriminate.
  - rewrite lastChar_append3 in E. discriminate.
  - rewrite lastChar_append in E. discriminate.
Qed.

(** C8.  [formatDuration] answers N/A for [null] and for a duration of 0
    milliseconds; for every positive duration it answers a string other
    than N/A, which is the hours and minutes form when at least an hour
    has passed, else the minutes and seconds form when at least a minute
    has passed, else the seconds form. *)
Theorem formatDuration_forms :
  formatDuration None = "N/A"
  /\ formatDuration (Some 0) = "N/A"
  /\ forall ms, 0 < ms ->
       let seconds := ms / 1000 in
       let minutes := seconds / 60 in
       let hours := minutes / 60 in
       formatDuration (Some ms) <> "N/A"
       /\ ((0 < hours
            /\ formatDuration (Some ms) =
                 numToString hours +++ "h "
                 +++ numToString (minutes mod 60) +++ "m")
           \/ (hours = 0 /\ 0 < minutes
               /\ formatDuration (Some ms) =
                    numToString minutes +++ "m "
                    +++ numToString (seconds mod 60) +++ "s")
           \/ (minutes = 0
               /\ formatDuration (Some ms) = numToString seconds +++ "s")).
Proof.
  split; [reflexivity|]. split; [reflexivity|].
  intros ms Hpos seconds minutes hours.
  assert (Hs : 0 <= seconds) by (apply Z.div_pos; lia).
  assert (Hm : 0 <= minutes) by (apply Z.div_pos; lia).
  assert (Hh : 0 <= hours) by (apply Z.div_pos; lia).
  split; [apply formatDuration_nonzero_not_NA; lia|].
  rewrite formatDuration_unfold by lia. cbv zeta.
  fold seconds. fold minutes. fold hours.
  destruct (0 <? hours) eqn:Eh.
  - left. apply Z.ltb_lt in Eh. split; [assumption|].
    rewrite Z.rem_mod_nonneg by lia. reflexivity.
  - apply Z.ltb_ge in Eh. destruct (0 <? minutes) eqn:Em.
    + right; left. apply Z.ltb_lt in Em.
      split; [lia|]. split; [assumption|].
      rewrite Z.rem_mod_nonneg by lia. reflexivity.
    + right; right. apply Z.ltb_ge in Em. split; [lia | reflexivity].
Qed.

Lemma formatDuration_forms_witness :
  formatDuration (Some 3725000) <> "N/A"
  /\ formatDuration (Some 3725000) = "1h 2m".
Proof.
  destruct formatDuration_forms as [_ [_ H]].
  specialize (H 3725000 ltac:(lia)). cbv zeta in H.
  destruct H as [Hna _]. split; [exact Hna | reflexivity].
Defined.

Example formatDuration_minutes : formatDuration (Some 125000) = "2m 5s".
Proof. reflexivity. Qed.

Example formatDuration_seconds : formatDuration (Some 999) = "0s".
Proof. reflexivity. Qed.

Example formatDuration_negative : formatDuration (Some (-5)) = "-1s".
Proof. reflexivity. Qed.

End FormatDuration.

(** ** Sorting and filters *)

Section Sorting.
Import ImportHistoryTable.

Lemma handleSort_sortBy (column : string) (s : State) :
  sortBy (filters (handleSort column s)) = column.
Proof. reflexivity. Qed.

Lemma handleSort_sortOrder (column : string) (s : State) :
  sortOrder (filters (handleSort column s)) =
    if String.eqb (sortBy (filters s)) column
       && String.eqb (sortOrder (filters s)) "desc"
    then "asc" else "desc".
Proof. reflexivity. Qed.

Lemma handleSort_valid (column : string) (s : State) :
  sortOrder (filters (handleSort column s)) = "asc"
  \/ sortOrder (filters (handleSort column s)) = "desc".
Proof.
  rewrite handleSort_sortOrder.
  destruct (_ && _); [left | right]; reflexivity.
Qed.

(** C10, as amended.  [handleSort] sets [sortOrder] to asc exactly when
    the column is already the sorted one and the order is desc, and to desc
    in every other case; a new column therefore starts descending.  Two
    calls on the column that is already the sorted one bring [sortOrder]
    back to where it was (two calls on a new column end in asc). *)
Theorem handleSort_toggle (column : string) (s : State) :
  (sortOrder (filters (handleSort column s)) = "asc"
   <-> sortBy (filters s) = column /\ sortOrder (filters s) = "desc")
  /\ (~ (sortBy (filters s) = column /\ sortOrder (filters s) = "desc")
      -> sortOrder (filters (handleSort column s)) = "desc")
  /\ (sortBy (filters s) <> column
      -> sortBy (filters (handleSort column s)) = column
         /\ sortOrder (filters (handleSort column s)) = "desc")
  /\ (sortBy (filters s) = column
      -> sortOrder (filters s) = "asc" \/ sortOrder (filters s) = "desc"
      -> sortOrder (filters (handleSort column (handleSort column s)))
         = sortOrder (filters s))
  /\ (sortBy (filters s) <> column
      -> sortOrder (filters (handleSort column (handleSort column s)))
         = "asc").
Proof.
  repeat rewrite handleSort_sortOrder. rewrite handleSort_sortBy.
  destruct (String.eqb_spec (sortBy (filters s)) column) as [Hc | Hc];
    destruct (String.eqb_spec (sortOrder (filters s)) "desc") as [Hd | Hd];
    rewrite ?String.eqb_refl; simpl;
    (split; [split; [intros H; try discriminate; auto
                    | intros [H1 H2]; try reflexivity; contradiction]|]);
    (split; [intros H; try reflexivity; exfalso; apply H; auto|]);
    (split; [intros H; try contradiction; auto|]);
    (split; [intros H1 H2; try contradiction|
             intros H; try contradiction; reflexivity]).
  - symmetry; assumption.
  - destruct H2 as [H2 | H2]; [symmetry; assumption | contradiction].
Qed.

Lemma handleSort_toggle_witness :
  sortOrder (filters (handleSort "startTime"
                        (handleSort "startTime" initialState)))
  = sortOrder (filters initialState).
Proof.
  apply (handleSort_toggle "startTime" initialState);
    [reflexivity | right; reflexivity].
Defined.

(** C10, as stated, fails: on a fresh table (sorted by startTime,
    descending) two clicks on the source column leave the order at asc,
    not at the desc it started from. *)
Lemma handleSort_twice_new_column :
  sortOrder (filters initialState) = "desc"
  /\ sortOrder (filters (handleSort "source"
                          (handleSort "source" initialState))) = "asc"
  /\ sortOrder (filters (handleSort "source"
                          (handleSort "source" initialState)))
     <> sortOrder (filters initialState).
Proof. repeat split. discriminate. Qed.

End Sorting.

(** ** The query of the logs endpoint *)

Section Query.
Import ImportHistoryTable.

Lemma hasParam_app (key : string) (a b : list (string * string)) :
  hasParam key (a ++ b) = hasParam key a || hasParam key b.
Proof. unfold hasParam. apply existsb_app. Qed.

Lemma hasParam_spreadIf (key name v : string) :
  hasParam key (spreadIf name v) = String.eqb name key && negb (String.eqb v "").
Proof.
  unfold spreadIf. destruct (String.eqb v ""); simpl;
    [now rewrite andb_false_r | now rewrite orb_false_r, andb_true_r].
Qed.

Lemma hasParam_queryParams (key : string) (page : Z) (p : Pagination)
  (f : Filters) :
  hasParam key (queryParams page p f) =
    String.eqb "page" key || String.eqb "limit" key
    || String.eqb "sortBy" key || String.eqb "sortOrder" key
    || String.eqb "source" key && negb (String.eqb (f_source f) "")
    || String.eqb "status" key && negb (String.eqb (f_status f) "")
    || String.eqb "startDate" key && negb (String.eqb (startDate f) "")
    || String.eqb "endDate" key && negb (String.eqb (endDate f) "").
Proof.
  unfold queryParams. rewrite !hasParam_app, !hasParam_spreadIf.
  unfold hasParam; simpl. rewrite orb_false_r, !orb_assoc. reflexivity.
Qed.

Lemma nonempty_iff (v : string) : negb (String.eqb v "") = true <-> v <> "".
Proof.
  destruct (String.eqb_spec v ""); simpl; split; intros; congruence.
Qed.

(** The entries handed to [URLSearchParams]: the four fixed ones, each
    filter exactly when it is not the empty string, and nothing else. *)
Lemma queryParams_entries (page : Z) (p : Pagination) (f : Filters) :
  let q := queryParams page p f in
  param "page" q = Some (numToString page)
  /\ param "limit" q = Some (numToString (limit p))
  /\ param "sortBy" q = Some (sortBy f)
  /\ param "sortOrder" q = Some (sortOrder f)
  /\ (hasParam "page" q = true /\ hasParam "limit" q = true
      /\ hasParam "sortBy" q = true /\ hasParam "sortOrder" q = true)
  /\ (hasParam "source" q = true <-> f_source f <> "")
  /\ (hasParam "status" q = true <-> f_status f <> "")
  /\ (hasParam "startDate" q = true <-> startDate f <> "")
  /\ (hasParam "endDate" q = true <-> endDate f <> "")
  /\ (forall key, hasParam key q = true ->
        In key ["page"; "limit"; "sortBy"; "sortOrder";
                "source"; "status"; "startDate"; "endDate"])
  /\ (forall key v, In key ["source"; "status"; "startDate"; "endDate"] ->
        param key q = Some v -> In (key, v)
          [("source", f_source f); ("status", f_status f);
           ("startDate", startDate f); ("endDate", endDate f)]).
Proof.
  intros q. subst q.
  repeat (split; [reflexivity|]).
  split; [repeat split; rewrite hasParam_queryParams; reflexivity|].
  do 4 (split; [rewrite hasParam_queryParams; simpl; rewrite ?orb_false_r;
                apply nonempty_iff|]).
  split.
  - intros key H. rewrite hasParam_queryParams in H.
    repeat (apply orb_true_iff in H; destruct H as [H | H]);
      try (apply andb_true_iff in H; destruct H as [H _]);
      apply String.eqb_eq in H; subst key; simpl; tauto.
  - intros key v Hk H. unfold queryParams, spreadIf in H. simpl in Hk.
    destruct Hk as [<- | [<- | [<- | [<- | []]]]];
      destruct (String.eqb (f_source f) ""), (String.eqb (f_status f) ""),
               (String.eqb (startDate f) ""), (String.eqb (endDate f) "");
      simpl in H; try discriminate; injection H as <-; simpl; tauto.
Qed.


Example query_example :
  formSerialize (queryParams 2 initialPagination
                   (mkFilters "" "failed" "" "2024-01-31" "source" "asc"))
  = "page=2&limit=10&sortBy=source&sortOrder=asc&status=failed&endDate=2024-01-31".
Proof. reflexivity. Qed.

Example formEncode_example : formEncode "in progress/50%" = "in+progress%2F50%25".
Proof. reflexivity. Qed.

End Query.

(** ** fetchLogs *)

Section FetchLogs.
Import ImportHistoryTable.

Ltac fetchLogs_cases o :=
  let code := fresh "code" in
  let b := fresh "body" in
  destruct o as [| code [ | | b]];
  unfold exec, fetchLogs, fetchLogsOf, fetchLogsBody, tryFinally, tryCatch,
    bind, fetch, json, dataOf, setComp, modify, throw, consoleError, toast,
    ret; simpl;
  try (destruct (Http.ok code); simpl);
  try (destruct (truthy (success b)); simpl);
  try (destruct (data b); simpl).

Lemma fetchLogsOf_requests (c : State) (page : Z) (o : fetchOutcome LogsData)
  (w : World State) :
  requests (exec (fetchLogsOf c page o) w)
  = requests w ++ [logsRequest page c].
Proof. fetchLogs_cases o; reflexivity. Qed.

Lemma fetchLogsOf_filters (c : State) (page : Z) (o : fetchOutcome LogsData)
  (w : World State) :
  filters (comp (exec (fetchLogsOf c page o) w)) = filters (comp w).
Proof. fetchLogs_cases o; reflexivity. Qed.

Lemma fetchLogs_exec (page : Z) (o : fetchOutcome LogsData)
  (w : World State) :
  exec (fetchLogs page o) w = exec (fetchLogsOf (comp w) page o) w.
Proof. unfold exec, fetchLogs. reflexivity. Qed.

Lemma fetchLogs_requests (page : Z) (o : fetchOutcome LogsData)
  (w : World State) :
  requests (exec (fetchLogs page o) w)
  = requests w ++ [logsRequest page (comp w)].
Proof. rewrite fetchLogs_exec. apply fetchLogsOf_requests. Qed.

Lemma fetchLogs_filters (page : Z) (o : fetchOutcome LogsData)
  (w : World State) :
  filters (comp (exec (fetchLogs page o) w)) = filters (comp w).
Proof. rewrite fetchLogs_exec. apply fetchLogsOf_filters. Qed.

Lemma dispatch_exec (e : Event) (w : World State) :
  exec (dispatch e) w =
    match e with
    | ToggleFilters =>
        exec (setComp (setShowFilters (negb (showFilters (comp w))))) w
    | ClickRefresh o =>
        exec (fetchLogs (currentPage (pagination (comp w))) o) w
    | SelectSource v o =>
        exec (fetchLogs 1 o) (exec (setComp (handleFilterChange KSource v)) w)
    | SelectStatus v o =>
        exec (fetchLogs 1 o) (exec (setComp (handleFilterChange KStatus v)) w)
    | PickStartDate v o =>
        exec (fetchLogs 1 o)
             (exec (setComp (handleFilterChange KStartDate v)) w)
    | PickEndDate v o =>
        exec (fetchLogs 1 o) (exec (setComp (handleFilterChange KEndDate v)) w)
    | ClickSort column o =>
        exec (fetchLogs 1 o) (exec (setComp (handleSort column)) w)
    | ClickClearFilters o =>
        exec (fetchLogs 1 o) (exec (setComp clearFilters) w)
    | ClickPrev o =>
        if prevEnabled (pagination (comp w))
        then exec (fetchLogs (currentPage (pagination (comp w)) - 1) o) w
        else w
    | ClickNext o =>
        if nextEnabled (pagination (comp w))
        then exec (fetchLogs (currentPage (pagination (comp w)) + 1) o) w
        else w
    | ClickDetails log => exec (setComp (showLogDetails log)) w
    | CloseDetails => exec (setComp (setShowDetails false)) w
    end.
Proof.
  destruct e; unfold dispatch, exec at 1; cbv beta zeta; try reflexivity.
  - destruct (prevEnabled _); reflexivity.
  - destruct (nextEnabled _); reflexivity.
Qed.

Lemma dispatch_filters (e : Event) (w : World State) :
  filters (comp (exec (dispatch e) w)) =
    match e with
    | SelectSource v _ => assign KSource v (filters (comp w))
    | SelectStatus v _ => assign KStatus v (filters (comp w))
    | PickStartDate v _ => assign KStartDate v (filters (comp w))
    | PickEndDate v _ => assign KEndDate v (filters (comp w))
    | ClickSort column _ => filters (handleSort column (comp w))
    | ClickClearFilters _ => filters (clearFilters (comp w))
    | _ => filters (comp w)
    end.
Proof.
  rewrite dispatch_exec.
  destruct e; rewrite ?fetchLogs_filters; try reflexivity.
  - destruct (prevEnabled _); [apply fetchLogs_filters | reflexivity].
  - destruct (nextEnabled _); [apply fetchLogs_filters | reflexivity].
Qed.

Lemma dispatch_validSortOrder (e : Event) (w : World State) :
  validSortOrder (filters (comp w)) ->
  validSortOrder (filters (comp (exec (dispatch e) w))).
Proof.
  intros H. rewrite dispatch_filters.
  destruct e; try exact H.
  - apply handleSort_valid.
  - right; reflexivity.
Qed.

Lemma run_validSortOrder (es : list Event) (w : World State) :
  validSortOrder (filters (comp w)) ->
  validSortOrder (filters (comp (run es w))).
Proof.
  revert w. induction es as [|e es IH]; intros w H; simpl; [exact H|].
  apply IH, dispatch_validSortOrder, H.
Qed.

Lemma mount_filters (o1 o2 : fetchOutcome LogsData) :
  filters (comp (mount o1 o2)) = initialFilters.
Proof. unfold mount. now rewrite !fetchLogsOf_filters. Qed.

(** C3.  The first request of the table asks for sortBy=startTime and
    sortOrder=desc; so does the request that follows a click on Clear
    Filters, from any state; and in every state the table can reach, by
    any sequence of user actions and whatever the server answers, the
    sortOrder sent is asc or desc. *)
Theorem sort_parameters :
  (forall o1 o2,
      map url (requests (mount o1 o2))
      = [ "/api/import/logs?page=1&limit=10&sortBy=startTime&sortOrder=desc";
          "/api/import/logs?page=1&limit=10&sortBy=startTime&sortOrder=desc" ])
  /\ (let q := queryParams 1 (pagination initialState)
                            (filters initialState) in
      param "sortBy" q = Some "startTime"
      /\ param "sortOrder" q = Some "desc")
  /\ (forall w o,
        let s := clearFilters (comp w) in
        let q := queryParams 1 (pagination s) (filters s) in
        requests (exec (dispatch (ClickClearFilters o)) w)
        = requests w ++ [Http.get ("/api/import/logs?" +++ formSerialize q)]
        /\ param "sortBy" q = Some "startTime"
        /\ param "sortOrder" q = Some "desc")
  /\ (forall o1 o2 es page,
        let s := comp (run es (mount o1 o2)) in
        let q := queryParams page (pagination s) (filters s) in
        param "sortOrder" q = Some "asc" \/ param "sortOrder" q = Some "desc").
Proof.
  split; [|split; [|split]].
  - intros o1 o2. unfold mount. rewrite !fetchLogsOf_requests. reflexivity.
  - split; reflexivity.
  - intros w o s q. split; [|split; reflexivity].
    rewrite dispatch_exec, fetchLogs_requests. reflexivity.
  - intros o1 o2 es page s q.
    assert (H : validSortOrder (filters s)).
    { apply run_validSortOrder. rewrite mount_filters. right; reflexivity. }
    subst q. unfold queryParams; simpl.
    destruct H as [H | H]; rewrite H; [left | right]; reflexivity.
Qed.

Example sort_then_clear :
  let w := run [ClickSort "source" NetworkFailure;
                ClickSort "source" NetworkFailure;
                ClickClearFilters NetworkFailure]
               (mount NetworkFailure NetworkFailure) in
  map url (requests w)
  = [ "/api/import/logs?page=1&limit=10&sortBy=startTime&sortOrder=desc";
      "/api/import/logs?page=1&limit=10&sortBy=startTime&sortOrder=desc";
      "/api/import/logs?page=1&limit=10&sortBy=source&sortOrder=desc";
      "/api/import/logs?page=1&limit=10&sortBy=source&sortOrder=asc";
      "/api/import/logs?page=1&limit=10&sortBy=startTime&sortOrder=desc" ].
Proof. reflexivity. Qed.

End FetchLogs.

Section FetchLogsFailure.
Import ImportHistoryTable.

(** C2.  When the request to /api/import/logs fails, by a network error,
    by a response that is not ok, or by a body whose [success] is false,
    the logs and the pagination of the table stay as they were, one error
    toast is shown and the loading flag is cleared. *)
Theorem fetchLogs_failure_keeps_data (page : Z) (o : fetchOutcome LogsData)
  (w : World State) :
  o = NetworkFailure
  \/ (exists code j, o = HttpResponse code j /\ Http.ok code = false)
  \/ (exists code b, o = HttpResponse code (JsonObject b)
                     /\ truthy (success b) = false) ->
  let w' := exec (fetchLogs page o) w in
  logs (comp w') = logs (comp w)
  /\ pagination (comp w') = pagination (comp w)
  /\ toasts w' = toasts w ++ [ToastError "Failed to fetch import logs"]
  /\ loading (comp w') = false.
Proof.
  intros [-> | [(code & j & -> & Hok) | (code & b & -> & Hs)]].
  - repeat split.
  - unfold exec, fetchLogs, fetchLogsOf, fetchLogsBody, tryFinally, tryCatch,
      bind, fetch.
    simpl. rewrite Hok. simpl. repeat split.
  - unfold exec, fetchLogs, fetchLogsOf, fetchLogsBody, tryFinally, tryCatch,
      bind, fetch.
    simpl. destruct (Http.ok code); simpl; [rewrite Hs; simpl|]; repeat split.
Qed.

Lemma fetchLogs_failure_keeps_data_witness :
  let w' := exec (fetchLogs 3
                    (HttpResponse 503
                       (JsonObject (mkBody (VBool false) (VStr "down") None))))
                 emptyWorld in
  logs (comp w') = [] /\ pagination (comp w') = initialPagination
  /\ toasts w' = [ToastError "Failed to fetch import logs"]
  /\ loading (comp w') = false.
Proof.
  apply (fetchLogs_failure_keeps_data 3
           (HttpResponse 503
              (JsonObject (mkBody (VBool false) (VStr "down") None)))
           emptyWorld).
  right; left. eexists _, _. split; reflexivity.
Defined.

(** The other two ways the [try] block can be left early: a body that is
    not JSON (or is [null]), and a success envelope without data. *)
Lemma fetchLogs_malformed_keeps_data (page : Z) (code : Z)
  (j : jsonOutcome LogsData) (w : World State) :
  j = JsonInvalid \/ j = JsonNull
  \/ (exists b, j = JsonObject b /\ data b = None) ->
  let w' := exec (fetchLogs page (HttpResponse code j)) w in
  logs (comp w') = logs (comp w)
  /\ pagination (comp w') = pagination (comp w)
  /\ toasts w' = toasts w ++ [ToastError "Failed to fetch import logs"].
Proof.
  intros H.
  unfold exec, fetchLogs, fetchLogsOf, fetchLogsBody, tryFinally, tryCatch,
      bind, fetch.
  simpl. destruct (Http.ok code); simpl; [|repeat split].
  destruct H as [-> | [-> | (b & -> & Hd)]]; simpl; try (repeat split; fail).
  unfold dataOf. rewrite Hd.
  destruct (truthy (success b)); simpl; repeat split.
Qed.

(** A good answer does replace both. *)
Lemma fetchLogs_success (page code : Z) (b : ApiBody LogsData) (d : LogsData)
  (w : World State) :
  Http.ok code = true -> truthy (success b) = true -> data b = Some d ->
  let w' := exec (fetchLogs page (HttpResponse code (JsonObject b))) w in
  logs (comp w') = d_logs d
  /\ pagination (comp w') = d_pagination d
  /\ toasts w' = toasts w.
Proof.
  intros Hok Hs Hd.
  unfold exec, fetchLogs, fetchLogsOf, fetchLogsBody, tryFinally, tryCatch,
    bind, fetch, dataOf.
  simpl. rewrite Hok. simpl. rewrite Hs, Hd. simpl. repeat split.
Qed.

End FetchLogsFailure.

(** ** The dashboard page *)

Section DashboardPage.
Import Dashboard.

(** C5.  [triggerImport] sends one request, a POST to /api/import/trigger
    whose JSON body is an object of exactly the members priority,
    concurrency and batchSize, each an integer; when the response is ok
    and carries [data], a success toast shows [data.data.jobId]. *)
Theorem triggerImport_request_and_job_id (o : fetchOutcome TriggerData)
  (w : World State) :
  let w' := exec (triggerImport o) w in
  requests w' = requests w ++ [triggerRequest]
  /\ url triggerRequest = "/api/import/trigger"
  /\ verb triggerRequest = POST
  /\ (exists p c b,
        body triggerRequest
        = Some (VObject [("priority", VNum p); ("concurrency", VNum c);
                         ("batchSize", VNum b)]))
  /\ (forall code b d,
        o = HttpResponse code (JsonObject b) -> Http.ok code = true ->
        data b = Some d ->
        toasts w'
        = toasts w ++ [ToastSuccess
                         ("Import job triggered successfully! Job ID: "
                          +++ toString (jobId d))]
        /\ timeouts w' = timeouts w ++ [("fetchData", 1000)]
        /\ triggering (comp w') = false).
Proof.
  intros w'. split; [|split; [reflexivity | split; [reflexivity | split]]].
  - subst w'. unfold exec, triggerImport, tryFinally, tryCatch, bind, fetch.
    simpl. destruct o as [| code [ | | b]]; simpl; try reflexivity;
      destruct (Http.ok code); simpl; try reflexivity.
    unfold dataOf. destruct (data b); reflexivity.
  - eexists _, _, _. reflexivity.
  - intros code b d -> Hok Hd. subst w'.
    unfold exec, triggerImport, tryFinally, tryCatch, bind, fetch, dataOf.
    simpl. rewrite Hok. simpl. rewrite Hd. simpl. repeat split.
Qed.

Lemma triggerImport_request_and_job_id_witness :
  toasts (exec (triggerImport
                  (HttpResponse 200
                     (JsonObject (mkBody (VBool true) VUndefined
                                    (Some (mkTriggerData (VNum 4711)))))))
               emptyWorld)
  = [ToastSuccess "Import job triggered successfully! Job ID: 4711"].
Proof.
  destruct (triggerImport_request_and_job_id
              (HttpResponse 200
                 (JsonObject (mkBody (VBool true) VUndefined
                                (Some (mkTriggerData (VNum 4711))))))
              emptyWorld) as (_ & _ & _ & _ & H).
  exact (proj1 (H 200 _ _ eq_refl eq_refl eq_refl)).
Defined.

(** Without [data] the template literal throws and the error toast is
    shown instead. *)
Example triggerImport_without_data :
  toasts (exec (triggerImport
                  (HttpResponse 200
                     (JsonObject (mkBody (VBool false) (VStr "refused") None))))
               emptyWorld)
  = [ToastError "Failed to trigger import job"].
Proof. reflexivity. Qed.

(** C1, evaluated where the page departs from it.  A 500 answer to
    /api/import/stats leaves no toast and no console line; a 200 answer
    with [success: false] is stored and rendered as the current
    statistics, again without a toast; and a 200 answer with
    [success: false] to /api/import/trigger raises the success toast. *)
Theorem fetchData_failed_response_not_surfaced :
  (let w' := exec (fetchData statsServerError statusOk) emptyWorld in
   toasts w' = [] /\ consoleErrors w' = []
   /\ importStats (comp w') = None
   /\ importStatus (comp w') = Some sampleStatus)
  /\ (let w' := exec (fetchData statsRefused statusOk) emptyWorld in
      toasts w' = [] /\ consoleErrors w' = []
      /\ importStats (comp w') = Some sampleStats)
  /\ (let w' := exec (triggerImport triggerRefused) emptyWorld in
      toasts w'
      = [ToastSuccess "Import job triggered successfully! Job ID: undefined"]).
Proof. repeat split. Qed.

(** A response that is not ok never reaches the user through [fetchData],
    whatever the state and the other answer. *)
Lemma fetchData_not_ok_silent (code : Z) (j : jsonOutcome ImportStats)
  (code' : Z) (b : ApiBody ImportStatus) (w : World State) :
  Http.ok code = false -> Http.ok code' = true ->
  let w' := exec (fetchData (HttpResponse code j)
                            (HttpResponse code' (JsonObject b))) w in
  toasts w' = toasts w /\ importStats (comp w') = importStats (comp w).
Proof.
  intros H H'.
  unfold exec, fetchData, tryFinally, tryCatch, bind, fetchBoth. simpl.
  rewrite H, H'. simpl. split; reflexivity.
Qed.

(** A network error does reach the user. *)
Example fetchData_network_failure :
  toasts (exec (fetchData NetworkFailure statusOk) emptyWorld)
  = [ToastError "Failed to fetch dashboard data"].
Proof. reflexivity. Qed.

End DashboardPage.

(** ** getStatusBadge *)

Section StatusBadge.
Import ImportHistoryTable.

Lemma getStatusBadge_documented :
  getStatusBadge "pending" = pendingBadge "pending"
  /\ getStatusBadge "in-progress"
     = mkBadge (badgeBase +++ "bg-blue-100 text-blue-800")
               (Some ArrowUpIcon) "in-progress"
  /\ getStatusBadge "completed"
     = mkBadge (badgeBase +++ "bg-green-100 text-green-800")
               (Some CheckCircleIcon) "completed"
  /\ getStatusBadge "failed"
     = mkBadge (badgeBase +++ "bg-red-100 text-red-800")
               (Some XCircleIcon) "failed"
  /\ getStatusBadge "cancelled"
     = mkBadge (badgeBase +++ "bg-gray-100 text-gray-800")
               (Some XCircleIcon) "cancelled".
Proof. repeat split. Qed.

(** A status that names neither a member of [statusConfig] nor a member
    of [Object.prototype] gets the pending style. *)
Lemma getStatusBadge_fallback (st : string) :
  ownMember st statusConfig = None ->
  existsb (String.eqb st) objectPrototype = false ->
  getStatusBadge st = pendingBadge st.
Proof.
  intros Hown Hproto. unfold getStatusBadge, getMember.
  rewrite Hown, Hproto. reflexivity.
Qed.

Lemma getStatusBadge_fallback_witness :
  getStatusBadge "queued" = pendingBadge "queued".
Proof. apply getStatusBadge_fallback; reflexivity. Defined.

(** Outside the names of [Object.prototype] every status has an icon. *)
Lemma getStatusBadge_icon (st : string) :
  existsb (String.eqb st) objectPrototype = false ->
  badgeIcon (getStatusBadge st) <> None.
Proof.
  intros Hproto. unfold getStatusBadge, getMember. rewrite Hproto.
  destruct (ownMember st statusConfig); discriminate.
Qed.

(** C9, evaluated where the code departs from it.  For the status
    "constructor" the lookup finds the inherited member, which is truthy,
    so the fallback is not taken: the class reads undefined twice and the
    component used as icon is [undefined].  The same happens for every
    name of [Object.prototype]. *)
Theorem getStatusBadge_inherited_member :
  getStatusBadge "constructor"
  = {| className := badgeBase +++ "undefined undefined";
       badgeIcon := None;
       label := "constructor" |}
  /\ getStatusBadge "constructor" <> pendingBadge "constructor"
  /\ Forall (fun st => badgeIcon (getStatusBadge st) = None
                       /\ getStatusBadge st <> pendingBadge st)
            objectPrototype.
Proof.
  split; [reflexivity|]. split; [discriminate|].
  repeat constructor; discriminate.
Qed.

End StatusBadge.

(** ** Pagination *)

Section PaginationControls.
Import ImportHistoryTable.

Lemma paginationControls_shown (p : Pagination) :
  paginationControls p = None <-> totalPages p <= 1.
Proof.
  unfold paginationControls. destruct (Z.ltb_spec 1 (totalPages p)).
  - split; [discriminate | lia].
  - split; [intros _; assumption | reflexivity].
Qed.

Lemma nextEnabled_eq (p : Pagination) :
  nextEnabled p = (1 <? totalPages p) && hasNextPage p.
Proof.
  unfold nextEnabled, paginationControls.
  destruct (1 <? totalPages p); simpl; [apply negb_involutive | reflexivity].
Qed.

Lemma prevEnabled_eq (p : Pagination) :
  prevEnabled p = (1 <? totalPages p) && hasPrevPage p.
Proof.
  unfold prevEnabled, paginationControls.
  destruct (1 <? totalPages p); simpl; [apply negb_involutive | reflexivity].
Qed.

Lemma Qceiling_Zdiv (n d : Z) :
  0 < d -> Qceiling (inject_Z n / inject_Z d) = - ((- n) / d).
Proof.
  intros Hd. destruct d as [|d|d]; try lia.
  unfold Qceiling, Qfloor, Qdiv, Qmult, Qinv, Qopp, inject_Z. simpl.
  rewrite Z.mul_1_r. reflexivity.
Qed.

Lemma ceilDiv_spec (count lim : Z) :
  0 < lim -> Server.ceilDiv count lim = (count + lim - 1) / lim.
Proof.
  intros H. unfold Server.ceilDiv. rewrite Qceiling_Zdiv by assumption.
  pose proof (Z.div_mod (- count) lim ltac:(lia)) as E1.
  pose proof (Z.mod_pos_bound (- count) lim H) as B1.
  set (q := - count / lim) in *. set (r := (- count) mod lim) in *.
  apply Z.div_unique with (r := lim - 1 - r); [left; lia | nia].
Qed.

Example ceilDiv_examples :
  Server.ceilDiv 0 10 = 0 /\ Server.ceilDiv 1 10 = 1
  /\ Server.ceilDiv 10 10 = 1 /\ Server.ceilDiv 11 10 = 2.
Proof. repeat split. Qed.

(** C6, as amended.  In the answer to a log query, [totalPages] is
    [ceil(totalCount / limit)] and [hasNextPage] is
    [currentPage < totalPages].  The pagination footer is rendered only
    when [totalPages > 1].  For a page number of at least 1 the next-page
    button can be pressed exactly when [hasNextPage]; the previous-page
    button can be pressed exactly when [hasPrevPage] and
    [totalPages > 1]. *)
Theorem pagination_buttons (count lim page : Z) (prev : bool) :
  let p := Server.paginate count lim page prev in
  totalPages p = Server.ceilDiv (totalCount p) (limit p)
  /\ hasNextPage p = (currentPage p <? totalPages p)
  /\ (paginationControls p = None <-> totalPages p <= 1)
  /\ (1 <= currentPage p ->
      (nextEnabled p = true <-> hasNextPage p = true))
  /\ (prevEnabled p = true <-> hasPrevPage p = true /\ 1 < totalPages p).
Proof.
  intros p. split; [reflexivity|]. split; [reflexivity|].
  split; [apply paginationControls_shown|]. split.
  - intros Hpage. rewrite nextEnabled_eq, andb_true_iff.
    split; [tauto|]. intros H. split; [|assumption].
    subst p. simpl in *. apply Z.ltb_lt in H. apply Z.ltb_lt. lia.
  - rewrite prevEnabled_eq, andb_true_iff, Z.ltb_lt. tauto.
Qed.

Lemma pagination_buttons_witness :
  nextEnabled (Server.paginate 25 10 2 true) = true
  <-> hasNextPage (Server.paginate 25 10 2 true) = true.
Proof.
  apply (pagination_buttons 25 10 2 true). simpl. lia.
Defined.

(** C6, as stated, fails: the second page of a query that now matches 5
    entries, 10 to a page, has a previous page, yet there is no
    previous-page button to press, since the footer is not rendered for a
    single page. *)
Lemma pagination_prev_not_rendered :
  let p := Server.paginate 5 10 2 true in
  totalPages p = 1
  /\ hasNextPage p = (currentPage p <? totalPages p)
  /\ hasPrevPage p = true
  /\ paginationControls p = None
  /\ prevEnabled p = false
  /\ ~ (prevEnabled p = true <-> hasPrevPage p = true).
Proof.
  repeat split; try reflexivity.
  intros [_ H]. specialize (H eq_refl). discriminate.
Qed.

End PaginationControls.

(** ** Success rate *)

Section SuccessRate.
Import ImportHistoryTable.

(** The rounded percentage in integer arithmetic. *)
Lemma round_percentage (a b : Z) :
  0 < b ->
  Server.round (inject_Z a / inject_Z b * inject_Z 100)
  = (200 * a + b) / (2 * b).
Proof.
  intros Hb. destruct b as [|b|b]; try lia.
  remember ((200 * a + Z.pos b) / (2 * Z.pos b)) as rhs eqn:E.
  unfold Server.round, Qfloor, Qplus, Qmult, Qdiv, Qinv, inject_Z. simpl.
  subst rhs. f_equal; lia.
Qed.

Lemma successRate_range (a b : Z) :
  0 <= a <= b -> 0 <= Server.successRate a b <= 100.
Proof.
  intros H. unfold Server.successRate.
  destruct (Z.ltb_spec 0 b); [|lia].
  rewrite round_percentage by assumption. split.
  - apply Z.div_pos; lia.
  - enough ((200 * a + b) / (2 * b) < 101) by lia.
    apply Z.div_lt_upper_bound; lia.
Qed.

Lemma accumulate_bounds (rs : list Server.RecordOutcome)
  (acc : Server.RunStats) :
  0 <= Server.r_new acc -> 0 <= Server.r_updated acc ->
  0 <= Server.r_failed acc ->
  Server.r_new acc + Server.r_updated acc + Server.r_failed acc
    <= Server.r_fetched acc ->
  let st := Server.accumulate rs acc in
  0 <= Server.r_new st /\ 0 <= Server.r_updated st
  /\ 0 <= Server.r_failed st
  /\ Server.r_new st + Server.r_updated st + Server.r_failed st
     <= Server.r_fetched st.
Proof.
  revert acc. induction rs as [|o rs IH]; intros acc Hn Hu Hf Hsum; simpl.
  - repeat split; assumption.
  - apply IH; destruct o; simpl; lia.
Qed.

Lemma accumulate_bounds_witness :
  Server.r_new (Server.accumulate [Server.Inserted; Server.Rejected]
                  (Server.mkRunStats 0 0 0 0))
  + Server.r_updated (Server.accumulate [Server.Inserted; Server.Rejected]
                        (Server.mkRunStats 0 0 0 0))
  + Server.r_failed (Server.accumulate [Server.Inserted; Server.Rejected]
                       (Server.mkRunStats 0 0 0 0))
  <= Server.r_fetched (Server.accumulate [Server.Inserted; Server.Rejected]
                         (Server.mkRunStats 0 0 0 0)).
Proof.
  apply (accumulate_bounds [Server.Inserted; Server.Rejected]
           (Server.mkRunStats 0 0 0 0)); simpl; lia.
Defined.

Lemma accumulate_fetched (rs : list Server.RecordOutcome)
  (acc : Server.RunStats) :
  Server.r_fetched (Server.accumulate rs acc)
  = Server.r_fetched acc + Z.of_nat (length rs).
Proof.
  revert acc. induction rs as [|o rs IH]; intros acc.
  - simpl. lia.
  - cbn [Server.accumulate length]. rewrite IH. destruct o; simpl; lia.
Qed.

(** C7.  For the entry a run is finalized to, [successRate] is
    [round(totalImported / totalFetched * 100)] when [totalFetched > 0]
    and 0 when [totalFetched] is 0; it lies between 0 and 100, and the
    cell of the table uses it as the percentage width of the bar. *)
Theorem successRate_formula_and_range (e : ImportLogEntry)
  (rs : list Server.RecordOutcome) :
  let log := Server.finalize e rs in
  successRate log
  = (if 0 <? totalFetched log
     then Server.round (inject_Z (totalImported log)
                        / inject_Z (totalFetched log) * inject_Z 100)
     else 0)
  /\ (if 0 <? totalFetched log
      then successRate log
           = (200 * totalImported log + totalFetched log)
             / (2 * totalFetched log)
      else totalFetched log = 0 /\ successRate log = 0)
  /\ 0 <= successRate log <= 100
  /\ barWidth (successRateCell log) = numToString (successRate log) +++ "%".
Proof.
  intros log.
  pose proof (accumulate_bounds rs (Server.mkRunStats 0 0 0 0)
                ltac:(simpl; lia) ltac:(simpl; lia) ltac:(simpl; lia)
                ltac:(simpl; lia)) as B.
  cbv zeta in B. destruct B as (Hn & Hu & Hf & Hsum).
  pose proof (accumulate_fetched rs (Server.mkRunStats 0 0 0 0)) as Hlen.
  simpl in Hlen.
  split; [reflexivity|]. split; [|split; [|reflexivity]].
  - subst log. unfold Server.finalize. cbn [successRate totalFetched totalImported].
    unfold Server.successRate.
    destruct (Z.ltb_spec 0 (Server.r_fetched
                              (Server.accumulate rs (Server.mkRunStats 0 0 0 0)))).
    + apply round_percentage. assumption.
    + split; [lia | reflexivity].
  - subst log. unfold Server.finalize. cbn [successRate].
    apply successRate_range. lia.
Qed.

(** The end-to-end scenario of the spec: 100 records, 5 fail validation,
    80 are new and 15 exist unchanged. *)
Example successRate_scenario (e : ImportLogEntry) :
  let log := Server.finalize e (repeat Server.Rejected 5
                                ++ repeat Server.Inserted 80
                                ++ repeat Server.Unchanged 15) in
  totalFetched log = 100 /\ totalImported log = 80 /\ newJobs log = 80
  /\ updatedJobs log = 0 /\ failedJobs log = 5 /\ successRate log = 80
  /\ barWidth (successRateCell log) = "80%".
Proof. repeat split. Qed.

Example round_half_up :
  Server.successRate 1 200 = 1 /\ Server.successRate 1 201 = 0
  /\ Server.successRate 2 3 = 67 /\ Server.successRate 0 0 = 0.
Proof. repeat split. Qed.

(** The cell itself shows whatever rate the entry carries. *)
Example successRateCell_as_received (e : ImportLogEntry) :
  successRate e = 150 -> barWidth (successRateCell e) = "150%".
Proof. intros H. unfold successRateCell. simpl. now rewrite H. Qed.

End SuccessRate.

(** * Further properties of the table *)

Section FetchLogsOutcome.
Import ImportHistoryTable.

Ltac run_fetchLogs o :=
  let code := fresh "code" in
  let b := fresh "body" in
  destruct o as [| code [ | | b]];
  unfold exec, fetchLogs, fetchLogsOf, fetchLogsBody, tryFinally, tryCatch,
    bind, fetch, json, dataOf, setComp, modify, throw, consoleError, toast,
    ret; simpl;
  try (destruct (Http.ok code); simpl);
  try (destruct (truthy (success b)); simpl);
  try (destruct (data b); simpl).

(** X1.  Whatever the server answers, [fetchLogs] either stores the
    payload of a good answer, showing no toast and logging nothing, or
    leaves logs and pagination alone, shows exactly one error toast and
    logs exactly one console line. *)
Theorem fetchLogs_outcome (page : Z) (o : fetchOutcome LogsData)
  (w : World State) :
  let w' := exec (fetchLogs page o) w in
  match logsPayload o with
  | Some d =>
      logs (comp w') = d_logs d /\ pagination (comp w') = d_pagination d
      /\ toasts w' = toasts w /\ consoleErrors w' = consoleErrors w
  | None =>
      logs (comp w') = logs (comp w)
      /\ pagination (comp w') = pagination (comp w)
      /\ toasts w' = toasts w ++ [logsToast]
      /\ exists e, consoleErrors w'
                   = consoleErrors w ++ [("Error fetching import logs:", e)]
  end.
Proof.
  unfold logsPayload. run_fetchLogs o; repeat split; eexists; reflexivity.
Qed.

(** X2.  Whatever the server answers, one call of [fetchLogs] sends
    exactly one request, built from the page asked for and the state of
    the call, ends with the loading flag cleared, and touches neither the
    filters nor the filter panel nor the details modal nor any timer. *)
Theorem fetchLogs_frame (page : Z) (o : fetchOutcome LogsData)
  (w : World State) :
  let w' := exec (fetchLogs page o) w in
  requests w' = requests w ++ [logsRequest page (comp w)]
  /\ loading (comp w') = false
  /\ filters (comp w') = filters (comp w)
  /\ showFilters (comp w') = showFilters (comp w)
  /\ selectedLog (comp w') = selectedLog (comp w)
  /\ showDetails (comp w') = showDetails (comp w)
  /\ timeouts w' = timeouts w.
Proof. run_fetchLogs o; repeat split. Qed.

(** X3.  When the body of an ok response says [success] is false, the
    message of the server goes to the console only (or the fixed text
    when there is no message); the toast shows the fixed text. *)
Theorem fetchLogs_server_message (page code : Z) (b : ApiBody LogsData)
  (w : World State) :
  Http.ok code = true -> truthy (success b) = false ->
  let w' := exec (fetchLogs page (HttpResponse code (JsonObject b))) w in
  consoleErrors w'
  = consoleErrors w
    ++ [("Error fetching import logs:",
         Error (if truthy (message b) then toString (message b)
                else "Failed to fetch import logs"))]
  /\ toasts w' = toasts w ++ [ToastError "Failed to fetch import logs"].
Proof.
  intros Hok Hs.
  unfold exec, fetchLogs, fetchLogsOf, fetchLogsBody, tryFinally, tryCatch,
    bind, fetch, Js.or.
  simpl. rewrite Hok. simpl. rewrite Hs. simpl.
  destruct (truthy (message b)); split; reflexivity.
Qed.

Lemma fetchLogs_server_message_witness :
  let w' := exec (fetchLogs 1
                    (HttpResponse 200
                       (JsonObject (mkBody (VBool false)
                                      (VStr "database unreachable") None))))
                 emptyWorld in
  consoleErrors w'
  = [("Error fetching import logs:", Error "database unreachable")]
  /\ toasts w' = [ToastError "Failed to fetch import logs"].
Proof.
  apply (fetchLogs_server_message 1 200
           (mkBody (VBool false) (VStr "database unreachable") None)
           emptyWorld); reflexivity.
Defined.

(** X4.  After a failed request the body of the table is what it was
    before the call, provided the table was not loading then: the rows
    on screen stay. *)
Theorem failed_fetch_same_rows (page : Z) (o : fetchOutcome LogsData)
  (w : World State) :
  logsPayload o = None -> loading (comp w) = false ->
  tableBody (comp (exec (fetchLogs page o) w)) = tableBody (comp w).
Proof.
  unfold logsPayload, tableBody. intros Hp Hl. revert Hp.
  run_fetchLogs o; rewrite ?Hl; try reflexivity; discriminate.
Qed.

Lemma failed_fetch_same_rows_witness :
  tableBody (comp (exec (fetchLogs 2 NetworkFailure)
                        (mount NetworkFailure NetworkFailure)))
  = tableBody (comp (mount NetworkFailure NetworkFailure)).
Proof. apply failed_fetch_same_rows; reflexivity. Defined.

End FetchLogsOutcome.

Section Reachable.
Import ImportHistoryTable.

Ltac run_fetchLogsOf o :=
  let code := fresh "code" in
  let b := fresh "body" in
  destruct o as [| code [ | | b]];
  unfold exec, fetchLogsOf, fetchLogsBody, tryFinally, tryCatch,
    bind, fetch, json, dataOf, setComp, modify, throw, consoleError, toast,
    ret; simpl;
  try (destruct (Http.ok code); simpl);
  try (destruct (truthy (success b)); simpl);
  try (destruct (data b); simpl).

Lemma fetchLogsOf_toasts (c : State) (page : Z) (o : fetchOutcome LogsData)
  (w : World State) :
  toasts (exec (fetchLogsOf c page o) w) = toasts w
  \/ toasts (exec (fetchLogsOf c page o) w) = toasts w ++ [logsToast].
Proof. run_fetchLogsOf o; auto. Qed.

Lemma fetchLogsOf_accounted (c : State) (page : Z) (o : fetchOutcome LogsData)
  (w : World State) :
  toastsAccounted w -> toastsAccounted (exec (fetchLogsOf c page o) w).
Proof.
  intros [Hall Hlen]. unfold toastsAccounted.
  rewrite fetchLogsOf_requests, length_app. simpl.
  destruct (fetchLogsOf_toasts c page o w) as [-> | ->].
  - split; [assumption | lia].
  - split.
    + apply Forall_app. split; [assumption | repeat constructor].
    + rewrite length_app. simpl. lia.
Qed.

Lemma fetchLogs_accounted (page : Z) (o : fetchOutcome LogsData)
  (w : World State) :
  toastsAccounted w -> toastsAccounted (exec (fetchLogs page o) w).
Proof. rewrite fetchLogs_exec. apply fetchLogsOf_accounted. Qed.

Lemma setComp_accounted (f : State -> State) (w : World State) :
  toastsAccounted w -> toastsAccounted (exec (setComp f) w).
Proof. intros H. exact H. Qed.

Lemma dispatch_accounted (e : Event) (w : World State) :
  toastsAccounted w -> toastsAccounted (exec (dispatch e) w).
Proof.
  intros H. rewrite dispatch_exec.
  destruct e;
    try (apply fetchLogs_accounted, setComp_accounted, H);
    try (apply fetchLogs_accounted, H);
    try (apply setComp_accounted, H).
  - destruct (prevEnabled _); [apply fetchLogs_accounted|]; exact H.
  - destruct (nextEnabled _); [apply fetchLogs_accounted|]; exact H.
Qed.

Lemma dispatch_requests_length (e : Event) (w : World State) :
  (length (requests (exec (dispatch e) w)) <= S (length (requests w)))%nat.
Proof.
  rewrite dispatch_exec.
  destruct e; rewrite ?fetchLogs_requests, ?length_app; simpl; try lia.
  - destruct (prevEnabled _);
      rewrite ?fetchLogs_requests, ?length_app; simpl; lia.
  - destruct (nextEnabled _);
      rewrite ?fetchLogs_requests, ?length_app; simpl; lia.
Qed.

Lemma run_accounted (es : list Event) (w : World State) :
  toastsAccounted w ->
  toastsAccounted (run es w)
  /\ (length (requests (run es w)) <= length (requests w) + length es)%nat.
Proof.
  revert w. induction es as [|e es IH]; intros w H; simpl.
  - split; [exact H | lia].
  - destruct (IH _ (dispatch_accounted e w H)) as [H1 H2].
    split; [exact H1|]. pose proof (dispatch_requests_length e w). lia.
Qed.

Lemma mount_accounted (o1 o2 : fetchOutcome LogsData) :
  toastsAccounted (mount o1 o2) /\ length (requests (mount o1 o2)) = 2%nat.
Proof.
  unfold mount. split.
  - apply fetchLogsOf_accounted, fetchLogsOf_accounted.
    split; [constructor | simpl; lia].
  - rewrite !fetchLogsOf_requests. reflexivity.
Qed.

(** X5.  In every world the table can reach, by any sequence of user
    actions and whatever the server answers, every toast on screen is the
    one error toast of [fetchLogs], there are no more toasts than
    requests sent, and no more requests than the two of the first render
    plus one for each action. *)
Theorem table_toasts_accounted (o1 o2 : fetchOutcome LogsData)
  (es : list Event) :
  let w := run es (mount o1 o2) in
  Forall (fun t => t = ToastError "Failed to fetch import logs") (toasts w)
  /\ (length (toasts w) <= length (requests w))%nat
  /\ (length (requests w) <= 2 + length es)%nat.
Proof.
  intros w. destruct (mount_accounted o1 o2) as [Hm Hl].
  destruct (run_accounted es _ Hm) as [[H1 H2] H3].
  fold w in H1, H2, H3. rewrite Hl in H3. repeat split; assumption.
Qed.

Lemma fetchLogsOf_settled (c : State) (page : Z) (o : fetchOutcome LogsData)
  (w : World State) :
  (showDetails (comp w) = true -> selectedLog (comp w) <> None) ->
  settled (comp (exec (fetchLogsOf c page o) w)).
Proof. unfold settled. run_fetchLogsOf o; auto. Qed.

Lemma fetchLogs_settled (page : Z) (o : fetchOutcome LogsData)
  (w : World State) :
  (showDetails (comp w) = true -> selectedLog (comp w) <> None) ->
  settled (comp (exec (fetchLogs page o) w)).
Proof. rewrite fetchLogs_exec. apply fetchLogsOf_settled. Qed.

Lemma dispatch_settled (e : Event) (w : World State) :
  settled (comp w) -> settled (comp (exec (dispatch e) w)).
Proof.
  intros [Hl Hd]. rewrite dispatch_exec.
  destruct e; try (apply fetchLogs_settled; exact Hd);
    try (split; [exact Hl | exact Hd]).
  - destruct (prevEnabled _);
      [apply fetchLogs_settled; exact Hd | split; assumption].
  - destruct (nextEnabled _);
      [apply fetchLogs_settled; exact Hd | split; assumption].
  - split; [exact Hl | discriminate].
  - split; [exact Hl | discriminate].
Qed.

Lemma run_settled (es : list Event) (w : World State) :
  settled (comp w) -> settled (comp (run es w)).
Proof.
  revert w. induction es as [|e es IH]; intros w H; simpl; [exact H|].
  apply IH, dispatch_settled, H.
Qed.

(** X6.  In every state the table can reach, the body of the table is
    not the spinner, and the details modal is on screen exactly when
    [showDetails] is set: the flag is never set without an entry. *)
Theorem table_settled (o1 o2 : fetchOutcome LogsData) (es : list Event) :
  let s := comp (run es (mount o1 o2)) in
  tableBody s <> Spinner
  /\ (detailsModal s <> None <-> showDetails s = true).
Proof.
  intros s.
  assert (H : settled s).
  { apply run_settled. unfold mount. apply fetchLogsOf_settled.
    intros H. exfalso. revert H.
    run_fetchLogsOf o1; discriminate. }
  destruct H as [Hl Hd]. unfold tableBody, detailsModal. rewrite Hl.
  split.
  - destruct (logs s); discriminate.
  - destruct (showDetails s); split; auto; discriminate.
Qed.

(** X7.  A page button that is disabled or not rendered changes nothing
    and sends nothing; one that can be pressed sends exactly one request,
    for the page before or after the current one, with the limit, sort
    and filters of the current state, and leaves the filters alone. *)
Theorem page_buttons (o : fetchOutcome LogsData) (w : World State) :
  let p := pagination (comp w) in
  (prevEnabled p = false -> exec (dispatch (ClickPrev o)) w = w)
  /\ (nextEnabled p = false -> exec (dispatch (ClickNext o)) w = w)
  /\ (prevEnabled p = true ->
      requests (exec (dispatch (ClickPrev o)) w)
      = requests w ++ [logsRequest (currentPage p - 1) (comp w)]
      /\ filters (comp (exec (dispatch (ClickPrev o)) w)) = filters (comp w))
  /\ (nextEnabled p = true ->
      requests (exec (dispatch (ClickNext o)) w)
      = requests w ++ [logsRequest (currentPage p + 1) (comp w)]
      /\ filters (comp (exec (dispatch (ClickNext o)) w)) = filters (comp w)).
Proof.
  intros p. rewrite !dispatch_exec. fold p.
  split; [|split; [|split]]; intros E; rewrite E; try reflexivity;
    (split; [apply fetchLogs_requests | apply fetchLogs_filters]).
Qed.

Lemma page_buttons_witness :
  exec (dispatch (ClickNext NetworkFailure))
       (mount NetworkFailure NetworkFailure)
  = mount NetworkFailure NetworkFailure.
Proof.
  apply (page_buttons NetworkFailure (mount NetworkFailure NetworkFailure)).
  reflexivity.
Defined.

(** X8.  In the footer, with at least one entry to a page, the range
    "Showing a to b" is in order exactly when the current page starts
    within the entries counted; then it ends at the count at the latest
    and spans no more than one page. *)
Theorem showing_range (p : Pagination) (c : PageControls) :
  paginationControls p = Some c -> 1 <= limit p ->
  (showingFrom c <= showingTo c
   <-> (currentPage p - 1) * limit p < totalCount p)
  /\ showingTo c <= totalCount p
  /\ showingTo c - showingFrom c < limit p.
Proof.
  unfold paginationControls. destruct (1 <? totalPages p); [|discriminate].
  intros [= <-] Hl. simpl. split; [|split]; lia.
Qed.

Lemma showing_range_witness :
  showingTo (mkControls 21 25 false 2 true 4) <= 25
  /\ showingTo (mkControls 21 25 false 2 true 4)
     - showingFrom (mkControls 21 25 false 2 true 4) < 10.
Proof.
  apply (showing_range (mkPagination 3 3 25 false true 10)
           (mkControls 21 25 false 2 true 4) eq_refl).
  simpl. lia.
Defined.

End Reachable.

Section SortAndFilter.
Import ImportHistoryTable.

(** X9.  After a click on a column header exactly that column carries a
    sort arrow.  On a column that was not the sorted one the arrow points
    down; on the sorted column each click turns the arrow around. *)
Theorem sortIcon_after_handleSort (column : string) (s : State) :
  (forall c, SortIcon c (handleSort column s) <> None <-> c = column)
  /\ (sortBy (filters s) <> column ->
      SortIcon column (handleSort column s) = Some ArrowDownIcon)
  /\ (SortIcon column s = Some ArrowDownIcon ->
      SortIcon column (handleSort column s) = Some ArrowUpIcon)
  /\ (SortIcon column s = Some ArrowUpIcon ->
      SortIcon column (handleSort column s) = Some ArrowDownIcon).
Proof.
  unfold SortIcon. rewrite handleSort_sortBy, handleSort_sortOrder.
  split; [|split; [|split]].
  - intros c. destruct (String.eqb_spec column c) as [-> | Hc]; simpl.
    + split; [reflexivity|]. intros _.
      destruct (String.eqb _ "desc"); discriminate.
    + split; [intros H; now contradiction H | intros ->; contradiction].
  - intros H. rewrite String.eqb_refl. simpl.
    destruct (String.eqb_spec (sortBy (filters s)) column); [contradiction|].
    reflexivity.
  - rewrite String.eqb_refl. simpl.
    destruct (String.eqb (sortBy (filters s)) column); simpl;
      [|discriminate].
    destruct (String.eqb (sortOrder (filters s)) "desc"); simpl;
      [reflexivity | discriminate].
  - rewrite String.eqb_refl. simpl.
    destruct (String.eqb (sortBy (filters s)) column); simpl;
      [|discriminate].
    destruct (String.eqb (sortOrder (filters s)) "desc"); simpl;
      [discriminate | reflexivity].
Qed.

Lemma sortIcon_after_handleSort_witness :
  SortIcon "status" (handleSort "status" initialState) = Some ArrowDownIcon.
Proof.
  destruct (sortIcon_after_handleSort "status" initialState)
    as (_ & H & _).
  apply H. simpl. discriminate.
Defined.

(** X10.  After Clear Filters the query has the four fixed parameters
    and no filter parameter, whatever the filters were; the sort arrow is
    on the timestamp column, pointing down; logs and pagination are as
    they were; and clearing twice is clearing once. *)
Theorem clearFilters_query (page : Z) (s : State) :
  map fst (queryParams page (pagination (clearFilters s))
                       (filters (clearFilters s)))
  = ["page"; "limit"; "sortBy"; "sortOrder"]
  /\ (forall c, SortIcon c (clearFilters s)
                = if String.eqb "startTime" c then Some ArrowDownIcon
                  else None)
  /\ logs (clearFilters s) = logs s
  /\ pagination (clearFilters s) = pagination s
  /\ clearFilters (clearFilters s) = clearFilters s.
Proof.
  split; [reflexivity|]. split; [|repeat split].
  intros c. unfold SortIcon, clearFilters, setFilters.
  cbn [filters sortBy sortOrder].
  destruct (String.eqb "startTime" c); reflexivity.
Qed.

Lemma param_app (n : string) (a b : list (string * string)) :
  param n (a ++ b)
  = match param n a with Some v => Some v | None => param n b end.
Proof.
  induction a as [|[k v] a IH]; simpl; [reflexivity|].
  destruct (String.eqb k n); [reflexivity | exact IH].
Qed.

Lemma param_spreadIf (n name v : string) :
  param n (spreadIf name v)
  = if String.eqb name n && negb (String.eqb v "") then Some v else None.
Proof.
  unfold spreadIf. destruct (String.eqb v ""); simpl.
  - now rewrite andb_false_r.
  - rewrite andb_true_r. reflexivity.
Qed.

Lemma param_queryParams (n : string) (page : Z) (p : Pagination)
  (f : Filters) :
  param n (queryParams page p f) =
    if String.eqb "page" n then Some (numToString page)
    else if String.eqb "limit" n then Some (numToString (limit p))
    else if String.eqb "sortBy" n then Some (sortBy f)
    else if String.eqb "sortOrder" n then Some (sortOrder f)
    else if String.eqb "source" n && negb (String.eqb (f_source f) "")
         then Some (f_source f)
    else if String.eqb "status" n && negb (String.eqb (f_status f) "")
         then Some (f_status f)
    else if String.eqb "startDate" n && negb (String.eqb (startDate f) "")
         then Some (startDate f)
    else if String.eqb "endDate" n && negb (String.eqb (endDate f) "")
         then Some (endDate f)
    else None.
Proof.
  unfold queryParams. cbn [app param].
  destruct (String.eqb "page" n); [reflexivity|].
  destruct (String.eqb "limit" n); [reflexivity|].
  destruct (String.eqb "sortBy" n); [reflexivity|].
  destruct (String.eqb "sortOrder" n); [reflexivity|].
  rewrite !param_app, !param_spreadIf.
  destruct (String.eqb "source" n && _); [reflexivity|].
  destruct (String.eqb "status" n && _); [reflexivity|].
  destruct (String.eqb "startDate" n && _); reflexivity.
Qed.

(** X11.  A change of one of the four filter inputs shows in the next
    query as that parameter alone: it carries the new value, or is absent
    when the new value is the empty string, and every other parameter is
    what it would have been. *)
Theorem filter_change_query (k : FilterKey) (v : string) (page : Z)
  (s : State) :
  isFilterInput k = true ->
  let s' := handleFilterChange k v s in
  param (keyName k) (queryParams page (pagination s') (filters s'))
  = (if String.eqb v "" then None else Some v)
  /\ forall n, n <> keyName k ->
       param n (queryParams page (pagination s') (filters s'))
       = param n (queryParams page (pagination s) (filters s)).
Proof.
  intros Hk s'. subst s'. split.
  - rewrite param_queryParams.
    destruct k; try discriminate;
      unfold handleFilterChange, setFilters, assign;
      cbn [filters pagination f_source f_status startDate endDate keyName];
      rewrite ?String.eqb_refl; cbn [andb String.eqb Ascii.eqb Bool.eqb];
      destruct (String.eqb v ""); cbn [negb];
      repeat match goal with
             | |- context [negb (String.eqb ?x "")] =>
                 destruct (String.eqb x ""); cbn [negb andb]
             end; reflexivity.
  - intros n Hn. rewrite !param_queryParams.
    assert (E : String.eqb (keyName k) n = false)
      by (apply String.eqb_neq; congruence).
    destruct k; try discriminate; cbn [keyName] in E;
      unfold handleFilterChange, setFilters, assign;
      cbn [filters pagination f_source f_status startDate endDate
           sortBy sortOrder];
      rewrite E; cbn [andb]; reflexivity.
Qed.

Lemma filter_change_query_witness :
  param "status"
    (queryParams 1 initialPagination
       (filters (handleFilterChange KStatus "failed" initialState)))
  = Some "failed".
Proof.
  apply (filter_change_query KStatus "failed" 1 initialState). reflexivity.
Defined.

(** X12.  Two different filter inputs can be changed in either order:
    whatever the server answers in between, the filters end up the same;
    and changing one input twice keeps the last value only. *)
Theorem filter_inputs_commute (k1 k2 : FilterKey) (v1 v2 : string)
  (f : Filters) :
  (k1 <> k2 -> assign k1 v1 (assign k2 v2 f) = assign k2 v2 (assign k1 v1 f))
  /\ assign k1 v1 (assign k1 v2 f) = assign k1 v1 f
  /\ forall (o1 o2 o3 o4 : fetchOutcome LogsData) (a b : string)
            (w : World State),
       filters (comp (run [SelectSource a o1; SelectStatus b o2] w))
       = filters (comp (run [SelectStatus b o3; SelectSource a o4] w)).
Proof.
  split; [|split].
  - intros H. destruct k1, k2; try reflexivity; contradiction.
  - destruct k1; reflexivity.
  - intros o1 o2 o3 o4 a b w. simpl.
    rewrite !dispatch_filters. reflexivity.
Qed.

Lemma filter_inputs_commute_witness :
  assign KSource "jobicy" (assign KStatus "failed" initialFilters)
  = assign KStatus "failed" (assign KSource "jobicy" initialFilters).
Proof.
  apply (filter_inputs_commute KSource KStatus "jobicy" "failed"
           initialFilters).
  discriminate.
Defined.

End SortAndFilter.

(** * Further properties of the query string *)

Section FormEncoding.
Import ImportHistoryTable.

Lemma formEncode_cons_safe (c : ascii) (r : string) :
  forallb formSafe (list_ascii_of_string (formEncode r)) = true ->
  forallb formSafe (list_ascii_of_string (formEncode (String c r))) = true.
Proof.
  intros IH.
  destruct c as [[] [] [] [] [] [] [] []]; simpl; exact IH.
Qed.

Lemma formEncode_safe (s : string) :
  forallb formSafe (list_ascii_of_string (formEncode s)) = true.
Proof.
  induction s as [|c r IH]; [reflexivity|].
  apply formEncode_cons_safe, IH.
Qed.

Lemma formDecode_cons (c : ascii) (r : string) :
  formDecode (formEncode (String c r)) = String c (formDecode (formEncode r)).
Proof. destruct c as [[] [] [] [] [] [] [] []]; reflexivity. Qed.

Lemma formDecode_encode (s : string) : formDecode (formEncode s) = s.
Proof.
  induction s as [|c r IH]; [reflexivity|].
  rewrite formDecode_cons, IH. reflexivity.
Qed.

Lemma countChar_append (c : ascii) (a b : string) :
  countChar c (a +++ b) = (countChar c a + countChar c b)%nat.
Proof.
  induction a as [|x a IH]; simpl; [reflexivity|]. rewrite IH. lia.
Qed.

Lemma countChar_safe (c : ascii) (s : string) :
  formSafe c = false ->
  forallb formSafe (list_ascii_of_string s) = true ->
  countChar c s = O.
Proof.
  intros Hc. induction s as [|x s IH]; simpl; [reflexivity|].
  intros H. apply andb_true_iff in H. destruct H as [Hx Hs].
  destruct (Ascii.eqb_spec x c) as [-> | _]; [congruence|].
  simpl. apply IH, Hs.
Qed.

(** X13.  The form encoding puts out nothing but letters, digits, the
    characters [*-._], the plus sign and the percent sign; so a query
    string of [n] entries has exactly [n] equals signs and, between the
    entries, [n - 1] ampersands, whatever the keys and values contain. *)
Theorem formSerialize_separators (q : list (string * string)) :
  (forall s, forallb formSafe (list_ascii_of_string (formEncode s)) = true)
  /\ countChar "=" (formSerialize q) = length q
  /\ countChar "&" (formSerialize q) = pred (length q).
Proof.
  split; [apply formEncode_safe|].
  assert (E : forall s, countChar "=" (formEncode s) = O)
    by (intros s; apply countChar_safe; [reflexivity | apply formEncode_safe]).
  assert (A : forall s, countChar "&" (formEncode s) = O)
    by (intros s; apply countChar_safe; [reflexivity | apply formEncode_safe]).
  induction q as [|[k v] q [IH1 IH2]]; [split; reflexivity|].
  cbn [formSerialize length]. destruct q as [|e q].
  - rewrite !countChar_append, !E, !A. split; reflexivity.
  - rewrite !countChar_append, !E, !A, IH1, IH2. split; reflexivity.
Qed.

(** X14.  The form encoding loses nothing: two strings with the same
    encoding are the same string. *)
Theorem formEncode_injective (a b : string) :
  formEncode a = formEncode b -> a = b.
Proof.
  intros H. apply (f_equal formDecode) in H.
  now rewrite !formDecode_encode in H.
Qed.

Lemma formEncode_injective_witness : "a b" = "a b".
Proof. apply formEncode_injective. reflexivity. Defined.

Lemma numToString_injective (a b : Z) : numToString a = numToString b -> a = b.
Proof.
  unfold numToString. intros H.
  apply (f_equal NilZero.int_of_string) in H.
  rewrite !NilZero.isi in H.
  - injection H as H. apply DecimalZ.to_int_inj, H.
  - destruct b; simpl; try discriminate.
    intros [= E]. apply (DecimalPos.Unsigned.to_uint_nonnil _ E).
  - destruct b; simpl; try discriminate.
    intros [= E]. apply (DecimalPos.Unsigned.to_uint_nonnil _ E).
  - destruct a; simpl; try discriminate.
    intros [= E]. apply (DecimalPos.Unsigned.to_uint_nonnil _ E).
  - destruct a; simpl; try discriminate.
    intros [= E]. apply (DecimalPos.Unsigned.to_uint_nonnil _ E).
Qed.

Lemma spreadIf_inj (key1 key2 : string) (v1 v2 : string)
  (r1 r2 : list (string * string)) :
  spreadIf key1 v1 ++ r1 = spreadIf key1 v2 ++ r2 ->
  (forall x, In x r1 -> fst x <> key1) ->
  (forall x, In x r2 -> fst x <> key1) ->
  key2 = key1 ->
  v1 = v2 /\ r1 = r2.
Proof.
  intros H H1 H2 _. unfold spreadIf in H.
  destruct (String.eqb_spec v1 ""), (String.eqb_spec v2 ""); simpl in H.
  - split; congruence.
  - subst r1. exfalso. apply (H1 (key1, v2)); [left|]; reflexivity.
  - subst r2. exfalso. apply (H2 (key1, v1)); [left|]; reflexivity.
  - injection H as -> ->. split; reflexivity.
Qed.

Lemma spreadIf_keys (key v : string) (x : string * string) :
  In x (spreadIf key v) -> fst x = key.
Proof.
  unfold spreadIf. destruct (String.eqb v ""); simpl; [tauto|].
  intros [<- | []]. reflexivity.
Qed.

Lemma queryParams_inj (page page' : Z) (p p' : Pagination)
  (f f' : Filters) :
  queryParams page p f = queryParams page' p' f' ->
  page = page' /\ limit p = limit p' /\ f = f'.
Proof.
  unfold queryParams. cbn [app]. intros H.
  injection H as Hpage Hlimit Hsb Hso H.
  apply numToString_injective in Hpage, Hlimit.
  apply (spreadIf_inj "source" "source") in H; try reflexivity.
  2,3: intros x Hx;
       repeat (apply in_app_or in Hx; destruct Hx as [Hx | Hx]);
       apply spreadIf_keys in Hx; rewrite Hx; discriminate.
  destruct H as [Hs H].
  apply (spreadIf_inj "status" "status") in H; try reflexivity.
  2,3: intros x Hx;
       repeat (apply in_app_or in Hx; destruct Hx as [Hx | Hx]);
       apply spreadIf_keys in Hx; rewrite Hx; discriminate.
  destruct H as [Hst H].
  apply (spreadIf_inj "startDate" "startDate") in H; try reflexivity.
  2,3: intros x Hx; apply spreadIf_keys in Hx; rewrite Hx; discriminate.
  destruct H as [Hsd H].
  assert (He : endDate f = endDate f').
  { unfold spreadIf in H.
    destruct (String.eqb_spec (endDate f) ""),
             (String.eqb_spec (endDate f') ""); simpl in H;
      congruence. }
  repeat split; try assumption.
  destruct f, f'; simpl in *; congruence.
Qed.

Lemma split_unique (c : ascii) (a a' r r' : string) :
  countChar c a = O -> countChar c a' = O ->
  a +++ String c r = a' +++ String c r' -> a = a' /\ r = r'.
Proof.
  revert a'. induction a as [|x a IH]; intros [|x' a']; simpl.
  - intros _ _ [= ->]. split; reflexivity.
  - intros _ H [= <- _]. rewrite Ascii.eqb_refl in H. discriminate.
  - intros H _ [= -> _]. rewrite Ascii.eqb_refl in H. discriminate.
  - intros H H' [= -> E].
    destruct (Ascii.eqb x' c); [discriminate|]. simpl in H, H'.
    destruct (IH a' H H' E) as [-> ->]. split; reflexivity.
Qed.

Lemma formEncode_count (c : ascii) (s : string) :
  formSafe c = false -> countChar c (formEncode s) = O.
Proof. intros H. apply countChar_safe; [exact H | apply formEncode_safe]. Qed.

Lemma entry_inj (k v k' v' : string) :
  formEncode k +++ "=" +++ formEncode v
  = formEncode k' +++ "=" +++ formEncode v' ->
  k = k' /\ v = v'.
Proof.
  intros H.
  apply (split_unique "=") in H; try (apply formEncode_count; reflexivity).
  destruct H as [Hk Hv].
  apply (f_equal formDecode) in Hk, Hv.
  rewrite !formDecode_encode in Hk, Hv. split; assumption.
Qed.

Lemma entry_no_amp (k v : string) :
  countChar "&" (formEncode k +++ "=" +++ formEncode v) = O.
Proof.
  rewrite !countChar_append, !formEncode_count by reflexivity. reflexivity.
Qed.

Lemma formSerialize_cons (k v : string) (e : string * string)
  (q : list (string * string)) :
  formSerialize ((k, v) :: e :: q)
  = (formEncode k +++ "=" +++ formEncode v)
    +++ String "&" (formSerialize (e :: q)).
Proof. cbn [formSerialize]. reflexivity. Qed.

Lemma single_amp_count (k v : string) :
  countChar "&" (formSerialize [(k, v)]) = O.
Proof. cbn [formSerialize]. apply entry_no_amp. Qed.

Lemma cons_amp_count (k v : string) (e : string * string)
  (q : list (string * string)) :
  countChar "&" (formSerialize ((k, v) :: e :: q))
  = S (countChar "&" (formSerialize (e :: q))).
Proof.
  rewrite formSerialize_cons, countChar_append, entry_no_amp. reflexivity.
Qed.

Lemma formSerialize_inj (q q' : list (string * string)) :
  formSerialize q = formSerialize q' -> q = q'.
Proof.
  revert q'. induction q as [|[k v] q IH]; intros [|[k' v'] q'] H.
  - reflexivity.
  - apply (f_equal (countChar "=")) in H. exfalso. revert H.
    destruct q'; cbn [formSerialize];
      rewrite !countChar_append; simpl; lia.
  - apply (f_equal (countChar "=")) in H. exfalso. revert H.
    destruct q; cbn [formSerialize];
      rewrite !countChar_append; simpl; lia.
  - destruct q as [|e q], q' as [|e' q'].
    + cbn [formSerialize] in H. apply entry_inj in H.
      destruct H as [-> ->]. reflexivity.
    + exfalso. apply (f_equal (countChar "&")) in H.
      rewrite single_amp_count, cons_amp_count in H. discriminate.
    + exfalso. apply (f_equal (countChar "&")) in H.
      rewrite single_amp_count, cons_amp_count in H. discriminate.
    + rewrite !formSerialize_cons in H.
      apply (split_unique "&") in H; try apply entry_no_amp.
      destruct H as [H1 H2]. apply entry_inj in H1. destruct H1 as [-> ->].
      rewrite (IH _ H2). reflexivity.
Qed.

Lemma append_inj_l (p x y : string) : p +++ x = p +++ y -> x = y.
Proof.
  induction p as [|c p IH]; simpl; [auto|]. intros [= H]. apply IH, H.
Qed.

(** X15.  The address of a log request loses nothing of what it asks
    for: two calls of [fetchLogs] that send the same request do so for
    the same page, the same limit and the same six filter members.
    Different filters never share an address. *)
Theorem logsRequest_injective (page page' : Z) (s s' : State) :
  logsRequest page s = logsRequest page' s' ->
  page = page' /\ limit (pagination s) = limit (pagination s')
  /\ filters s = filters s'.
Proof.
  intros H. apply (f_equal url) in H. unfold logsRequest, Http.get in H.
  cbn [url] in H. apply append_inj_l, formSerialize_inj in H.
  apply queryParams_inj, H.
Qed.

Lemma logsRequest_injective_witness :
  3 = 3 /\ limit (pagination initialState) = limit (pagination initialState)
  /\ filters initialState = filters initialState.
Proof.
  apply (logsRequest_injective 3 3 initialState initialState). reflexivity.
Defined.

End FormEncoding.

(** * Further properties of the cells *)

Section Cells.
Import ImportHistoryTable.

(** X16.  For a duration of [h] hours, [m] minutes, [sec] seconds and
    [r] milliseconds that is not zero, [formatDuration] shows hours and
    minutes when [h > 0] (seconds and milliseconds are dropped), else
    minutes and seconds when [m > 0], else the seconds alone; a duration
    below one second shows as 0s. *)
Theorem formatDuration_parts (h m sec r : Z) :
  0 <= h -> 0 <= m < 60 -> 0 <= sec < 60 -> 0 <= r < 1000 ->
  ((h * 60 + m) * 60 + sec) * 1000 + r <> 0 ->
  formatDuration (Some (((h * 60 + m) * 60 + sec) * 1000 + r))
  = if 0 <? h then numToString h +++ "h " +++ numToString m +++ "m"
    else if 0 <? m then numToString m +++ "m " +++ numToString sec +++ "s"
    else numToString sec +++ "s".
Proof.
  intros Hh Hm Hs Hr Hnz. rewrite formatDuration_unfold by assumption.
  cbv zeta.
  assert (E1 : (((h * 60 + m) * 60 + sec) * 1000 + r) / 1000
               = (h * 60 + m) * 60 + sec)
    by (symmetry; apply Z.div_unique with (r := r); lia).
  rewrite E1.
  assert (E2 : ((h * 60 + m) * 60 + sec) / 60 = h * 60 + m)
    by (symmetry; apply Z.div_unique with (r := sec); lia).
  rewrite E2.
  assert (E3 : (h * 60 + m) / 60 = h)
    by (symmetry; apply Z.div_unique with (r := m); lia).
  rewrite E3.
  assert (E4 : Z.rem (h * 60 + m) 60 = m).
  { rewrite Z.rem_mod_nonneg by lia.
    symmetry; apply Z.mod_unique with (q := h); lia. }
  assert (E5 : Z.rem ((h * 60 + m) * 60 + sec) 60 = sec).
  { rewrite Z.rem_mod_nonneg by lia.
    symmetry; apply Z.mod_unique with (q := h * 60 + m); lia. }
  rewrite E4, E5.
  destruct (Z.ltb_spec 0 h); [reflexivity|].
  assert (h = 0) by lia. subst h. rewrite Z.mul_0_l, Z.add_0_l.
  destruct (Z.ltb_spec 0 m); [reflexivity|].
  assert (m = 0) by lia. subst m. reflexivity.
Qed.

Lemma formatDuration_parts_witness :
  formatDuration (Some (((2 * 60 + 5) * 60 + 59) * 1000 + 999)) = "2h 5m".
Proof. apply (formatDuration_parts 2 5 59 999); lia. Defined.

(** X17.  A negative duration is not N/A: it shows as a negative number
    of seconds, rounded away from zero. *)
Theorem formatDuration_below_zero (ms : Z) :
  ms < 0 ->
  formatDuration (Some ms) = numToString (ms / 1000) +++ "s"
  /\ ms / 1000 <= -1
  /\ formatDuration (Some ms) <> "N/A".
Proof.
  intros H.
  assert (H1 : ms / 1000 < 0) by (apply Z.div_lt_upper_bound; lia).
  assert (H2 : ms / 1000 / 60 < 0) by (apply Z.div_lt_upper_bound; lia).
  assert (H3 : ms / 1000 / 60 / 60 < 0) by (apply Z.div_lt_upper_bound; lia).
  split; [|split; [lia | apply formatDuration_nonzero_not_NA; lia]].
  rewrite formatDuration_unfold by lia. cbv zeta.
  destruct (Z.ltb_spec 0 (ms / 1000 / 60 / 60)); [lia|].
  destruct (Z.ltb_spec 0 (ms / 1000 / 60)); [lia|]. reflexivity.
Qed.

Lemma formatDuration_below_zero_witness :
  formatDuration (Some (-1500)) = "-2s".
Proof. apply (formatDuration_below_zero (-1500)). lia. Defined.

Lemma ownMember_none (st : string) (o : list (string * StatusStyle)) :
  ~ In st (map fst o) -> ownMember st o = None.
Proof.
  induction o as [|[k c] o IH]; simpl; [reflexivity|].
  intros H. destruct (String.eqb_spec k st) as [-> | _]; [tauto|].
  apply IH. tauto.
Qed.

Lemma existsb_eqb_false (st : string) (l : list string) :
  ~ In st l -> existsb (String.eqb st) l = false.
Proof.
  induction l as [|x l IH]; simpl; [reflexivity|].
  intros H. destruct (String.eqb_spec st x) as [-> | _]; [tauto|].
  apply IH. tauto.
Qed.

(** X18.  A status gets the pending badge exactly when it is none of the
    four other documented statuses and no member name of
    [Object.prototype]. *)
Theorem getStatusBadge_pending_iff (st : string) :
  getStatusBadge st = pendingBadge st
  <-> ~ In st ["in-progress"; "completed"; "failed"; "cancelled"]
      /\ ~ In st objectPrototype.
Proof.
  split.
  - intros H. split; intros Hin; simpl in Hin;
      repeat (destruct Hin as [<- | Hin]; [discriminate H|]);
      exact Hin.
  - intros [H1 H2].
    destruct (String.eqb_spec "pending" st) as [<- | Hp]; [reflexivity|].
    apply getStatusBadge_fallback.
    + apply ownMember_none. simpl in *. tauto.
    + apply existsb_eqb_false, H2.
Qed.

(** X19.  The component used as icon of a badge is [undefined] exactly
    for the member names of [Object.prototype]; every other status,
    documented or not, has an icon. *)
Theorem getStatusBadge_icon_iff (st : string) :
  badgeIcon (getStatusBadge st) = None <-> In st objectPrototype.
Proof.
  split.
  - intros H. destruct (existsb (String.eqb st) objectPrototype) eqn:E.
    + apply existsb_exists in E. destruct E as (x & Hx & Heq).
      apply String.eqb_eq in Heq. subst x. exact Hx.
    + exfalso. revert H. unfold getStatusBadge, getMember. rewrite E.
      destruct (ownMember st statusConfig); discriminate.
  - intros Hin. simpl in Hin.
    repeat (destruct Hin as [<- | Hin]; [reflexivity|]). contradiction.
Qed.

End Cells.

(** * Further properties of the dashboard page *)

Section DashboardEffects.
Import Dashboard.

Ltac run_fetchData oStats oStatus :=
  let c1 := fresh "c1" in
  let c2 := fresh "c2" in
  destruct oStats as [| c1 [ | | ?]]; destruct oStatus as [| c2 [ | | ?]];
  unfold exec, fetchData, tryFinally, tryCatch, bind, fetchBoth, json,
    setComp, modify, throw, consoleError, toast, ret, fetchDataThrows,
    unreadable; simpl;
  try (destruct (Http.ok c1); simpl);
  try (destruct (Http.ok c2); simpl).

(** X20.  Whatever the two answers, [fetchData] sends exactly the two
    requests, for the statistics and for the status, ends with the
    loading flag cleared, sets no timer and leaves the trigger flag and
    the tab alone.  It shows at most one toast, the error toast, and it
    does so exactly when a request fails on the network or an ok
    response has a body that cannot be read. *)
Theorem fetchData_effects (oStats : fetchOutcome ImportStats)
  (oStatus : fetchOutcome ImportStatus) (w : World State) :
  let w' := exec (fetchData oStats oStatus) w in
  requests w' = requests w ++ [Http.get "/api/import/stats";
                               Http.get "/api/import/status"]
  /\ loading (comp w') = false
  /\ triggering (comp w') = triggering (comp w)
  /\ activeTab (comp w') = activeTab (comp w)
  /\ timeouts w' = timeouts w
  /\ toasts w'
     = toasts w ++ (if fetchDataThrows oStats oStatus
                    then [ToastError "Failed to fetch dashboard data"]
                    else []).
Proof.
  run_fetchData oStats oStatus; rewrite ?app_nil_r; repeat split.
Qed.

(** X21.  What [fetchData] stores.  If either request fails on the
    network nothing is stored.  Otherwise the statistics are replaced by
    the [data] of their response when it is ok and readable, whatever
    [success] says and even if the status answer then ends in the error
    toast; and the status is replaced likewise, unless the body of the
    statistics could not be read, which skips it. *)
Theorem fetchData_stores (oStats : fetchOutcome ImportStats)
  (oStatus : fetchOutcome ImportStatus) (w : World State) :
  let w' := exec (fetchData oStats oStatus) w in
  match oStats, oStatus with
  | HttpResponse c1 j1, HttpResponse c2 j2 =>
      importStats (comp w')
      = (if Http.ok c1
         then match j1 with
              | JsonObject b => data b
              | _ => importStats (comp w)
              end
         else importStats (comp w))
      /\ importStatus (comp w')
         = (if unreadable c1 j1 then importStatus (comp w)
            else if Http.ok c2
                 then match j2 with
                      | JsonObject b => data b
                      | _ => importStatus (comp w)
                      end
                 else importStatus (comp w))
  | _, _ =>
      importStats (comp w') = importStats (comp w)
      /\ importStatus (comp w') = importStatus (comp w)
  end.
Proof. run_fetchData oStats oStatus; split; reflexivity. Qed.

(** X22.  Whatever the answer, [triggerImport] sends one request and
    shows exactly one toast: the success toast with the job id when the
    response is ok and its body has [data], else the error toast.  The
    refresh after one second is scheduled exactly with the success toast.
    The trigger flag is cleared at the end, and statistics, status,
    loading flag and tab are left alone. *)
Theorem triggerImport_effects (o : fetchOutcome TriggerData)
  (w : World State) :
  let w' := exec (triggerImport o) w in
  toasts w'
  = toasts w
    ++ [match triggerPayload o with
        | Some d => ToastSuccess
                      ("Import job triggered successfully! Job ID: "
                       +++ toString (jobId d))
        | None => ToastError "Failed to trigger import job"
        end]
  /\ timeouts w'
     = timeouts w ++ (match triggerPayload o with
                      | Some _ => [("fetchData", 1000)]
                      | None => []
                      end)
  /\ triggering (comp w') = false
  /\ importStats (comp w') = importStats (comp w)
  /\ importStatus (comp w') = importStatus (comp w)
  /\ loading (comp w') = loading (comp w)
  /\ activeTab (comp w') = activeTab (comp w).
Proof.
  destruct o as [| code [ | | b]];
    unfold exec, triggerImport, tryFinally, tryCatch, bind, fetch, json,
      dataOf, setComp, modify, throw, consoleError, toast, setTimeout, ret,
      triggerPayload; simpl;
    try (destruct (Http.ok code); simpl);
    try (destruct (data b); simpl);
    rewrite ?app_nil_r; repeat split.
Qed.

End DashboardEffects.

(** * The query string sent *)

Section QueryString.
Import ImportHistoryTable.

Lemma percentDecode_cons (c : ascii) (r : string) :
  percentDecode (formEncode (String c r))
  = String c (percentDecode (formEncode r)).
Proof. destruct c as [[] [] [] [] [] [] [] []]; reflexivity. Qed.

Lemma percentDecode_encode (s : string) : percentDecode (formEncode s) = s.
Proof.
  induction s as [|c r IH]; [reflexivity|].
  rewrite percentDecode_cons, IH. reflexivity.
Qed.

Lemma splitOn_whole (c : ascii) (a : string) :
  countChar c a = O -> splitOn c a = [a].
Proof.
  induction a as [|x a IH]; simpl; [reflexivity|].
  destruct (Ascii.eqb x c); [discriminate|]. simpl.
  intros H. rewrite (IH H). reflexivity.
Qed.

Lemma splitOn_first (c : ascii) (a b : string) :
  countChar c a = O ->
  splitOn c (a +++ String c b) = a :: splitOn c b.
Proof.
  induction a as [|x a IH]; simpl.
  - intros _. rewrite Ascii.eqb_refl. reflexivity.
  - destruct (Ascii.eqb x c); [discriminate|]. simpl.
    intros H. rewrite (IH H). reflexivity.
Qed.

Lemma cutAt_first (c : ascii) (a b : string) :
  countChar c a = O -> cutAt c (a +++ String c b) = (a, b).
Proof.
  induction a as [|x a IH]; simpl.
  - intros _. rewrite Ascii.eqb_refl. reflexivity.
  - destruct (Ascii.eqb x c); [discriminate|]. simpl.
    intros H. rewrite (IH H). reflexivity.
Qed.

Lemma parseEntry_entry (k v : string) :
  parseEntry (formEncode k +++ "=" +++ formEncode v) = (k, v).
Proof.
  unfold parseEntry.
  change ("=" +++ formEncode v) with (String "=" (formEncode v)).
  rewrite cutAt_first by (apply formEncode_count; reflexivity).
  rewrite !percentDecode_encode. reflexivity.
Qed.

Lemma entry_nonempty (k v : string) :
  String.eqb (formEncode k +++ "=" +++ formEncode v) "" = false.
Proof.
  apply String.eqb_neq. intros H.
  apply (f_equal (countChar "=")) in H.
  rewrite !countChar_append in H. simpl in H. lia.
Qed.

(** Reading the query string gives back the entries it was written
    from. *)
Lemma formParse_serialize (q : list (string * string)) :
  formParse (formSerialize q) = q.
Proof.
  unfold formParse. induction q as [|[k v] q IH]; [reflexivity|].
  destruct q as [|e q].
  - cbn [formSerialize].
    rewrite splitOn_whole by apply entry_no_amp.
    cbn [filter]. rewrite entry_nonempty. cbn [negb map].
    rewrite parseEntry_entry. reflexivity.
  - rewrite formSerialize_cons.
    rewrite splitOn_first by apply entry_no_amp.
    cbn [filter]. rewrite entry_nonempty. cbn [negb map].
    rewrite parseEntry_entry, IH. reflexivity.
Qed.

(** C4.  Every call of [fetchLogs] sends a request to /api/import/logs
    with a query string which, read back, always has page, limit, sortBy
    and sortOrder, with the values of the call and of the state; it has
    source, status, startDate and endDate each exactly when that filter
    is not the empty string, then with the value of the filter; and it
    has no other parameter. *)
Theorem fetchLogs_query_string (page : Z) (o : fetchOutcome LogsData)
  (w : World State) :
  let f := filters (comp w) in
  exists qs : string,
    requests (exec (fetchLogs page o) w)
    = requests w ++ [Http.get ("/api/import/logs?" +++ qs)]
    /\ let q := formParse qs in
       param "page" q = Some (numToString page)
       /\ param "limit" q = Some (numToString (limit (pagination (comp w))))
       /\ param "sortBy" q = Some (sortBy f)
       /\ param "sortOrder" q = Some (sortOrder f)
       /\ (hasParam "page" q = true /\ hasParam "limit" q = true
           /\ hasParam "sortBy" q = true /\ hasParam "sortOrder" q = true)
       /\ (hasParam "source" q = true <-> f_source f <> "")
       /\ (hasParam "status" q = true <-> f_status f <> "")
       /\ (hasParam "startDate" q = true <-> startDate f <> "")
       /\ (hasParam "endDate" q = true <-> endDate f <> "")
       /\ (forall key, hasParam key q = true ->
             In key ["page"; "limit"; "sortBy"; "sortOrder";
                     "source"; "status"; "startDate"; "endDate"])
       /\ (forall key v,
             In key ["source"; "status"; "startDate"; "endDate"] ->
             param key q = Some v ->
             In (key, v)
                [("source", f_source f); ("status", f_status f);
                 ("startDate", startDate f); ("endDate", endDate f)]).
Proof.
  intros f.
  exists (formSerialize (queryParams page (pagination (comp w)) f)).
  split; [apply fetchLogs_requests|].
  cbv zeta. rewrite formParse_serialize.
  apply (queryParams_entries page (pagination (comp w)) f).
Qed.

Lemma fetchLogs_query_string_witness :
  exists qs : string,
    requests (exec (fetchLogs 2 NetworkFailure) failedOnly)
    = [Http.get ("/api/import/logs?" +++ qs)]
    /\ hasParam "status" (formParse qs) = true
    /\ param "status" (formParse qs) = Some "failed"
    /\ hasParam "source" (formParse qs) = false.
Proof.
  destruct (fetchLogs_query_string 2 NetworkFailure failedOnly)
    as (qs & Hreq & H).
  cbv zeta in H.
  destruct H as (_ & _ & _ & _ & _ & Hsource & Hstatus & _ & _ & _ & Hval).
  exists qs. split; [exact Hreq|].
  assert (Hs : hasParam "status" (formParse qs) = true)
    by (apply Hstatus; discriminate).
  split; [exact Hs|]. split.
  - destruct (param "status" (formParse qs)) as [v|] eqn:E.
    + specialize (Hval "status" v ltac:(simpl; tauto) E). simpl in Hval.
      destruct Hval as [Hv | [Hv | [Hv | [Hv | []]]]];
        try discriminate Hv. injection Hv as <-. reflexivity.
    + exfalso. clear - Hs E. unfold hasParam in Hs.
      induction (formParse qs) as [|[k x] l IH]; [discriminate|].
      simpl in *. destruct (String.eqb k "status"); [discriminate|].
      apply IH; assumption.
  - destruct (hasParam "source" (formParse qs)); [|reflexivity].
    exfalso. apply (proj1 Hsource eq_refl). reflexivity.
Defined.

Example formParse_example :
  formParse "page=2&limit=10&sortBy=source&sortOrder=asc&status=in+progress%2F50%25"
  = [("page", "2"); ("limit", "10"); ("sortBy", "source");
     ("sortOrder", "asc"); ("status", "in progress/50%")].
Proof. reflexivity. Qed.

End QueryString.
